(** * ExaMPM_Solver.hpp: the time-stepping driver, its shutdown reap,
      the timer statistics and the solver factory

    A shallow embedding of [src/ExaMPM_Solver.hpp].

    - C++ [double] is Rocq's primitive binary64 [float]: the additions and
      comparisons below are the IEEE-754 ones the compiled code performs,
      NaN included.
    - C++ [int] is a [Z] kept inside the 32-bit range; an operation the
      language leaves undefined (signed overflow, division by zero) ends the
      run with the fault [Undefined].
    - The members of [Solver] and the namespace-scope counter [nfork] form
      one [State]; a member that the constructor does not initialise
      ([shmrank], [io_stats]) is an [option] that starts as [None].
    - The collaborators declared in other headers (time step control, time
      integrator, problem manager, Cabana's HDF5 writer), MPI, the process
      environment and the operating system are the fields of a [World].
    - What the program does to the outside (messages, writes, forks, waits,
      the job abort) is recorded as a trace of [event]s.
    - The [while] loop of [solve] runs for at most [fuel] iterations; a run
      that would need more ends with the fault [OutOfFuel], in the state and
      with the trace it has reached by then. *)

From Stdlib Require Import ZArith List Bool Lia String Ascii DecimalString.
From Stdlib Require Import Floats.
From Stdlib Require DecimalPos DecimalZ.
Import ListNotations.

Local Open Scope string_scope.
Local Open Scope list_scope.
Local Open Scope Z_scope.

(* ================================================================== *)
(** ** Machine numbers *)

Definition double := float.

Definition INT_MAX : Z := 2147483647.
Definition INT_MIN : Z := -2147483648.

(** What the C++ standard leaves undefined and this file can reach. *)
Inductive undefined := DivisionByZero | SignedOverflow.

Inductive fault :=
| MPI_Aborted                 (* MPI_Abort( MPI_COMM_WORLD, -1 ) was called *)
| Undefined (why : undefined)
| OutOfFuel.                  (* the bound on loop iterations was reached *)

Inductive result (A : Type) :=
| Val (a : A)
| Fault (f : fault).
Arguments Val {A} a.
Arguments Fault {A} f.

(** [x++] on an [int]. *)
Definition int_incr (x : Z) : result Z :=
  if x <? INT_MAX then Val (x + 1) else Fault (Undefined SignedOverflow).

(** [a % b] on [int]s: the remainder of the division truncated towards
    zero. *)
Definition int_rem (a b : Z) : result Z :=
  if b =? 0 then Fault (Undefined DivisionByZero)
  else if (a =? INT_MIN) && (b =? -1) then Fault (Undefined SignedOverflow)
  else Val (Z.rem a b).

(** The conversion of an [int] in [0, 2^31) to [double] (exact). *)
Definition double_of_int (n : Z) : double := PrimFloat.of_uint63 (Uint63.of_Z n).

(** [std::stringstream << int]. *)
Definition string_of_int (n : Z) : string := NilZero.string_of_int (Z.to_int n).

(* ================================================================== *)
(** ** Data *)

(** [struct timer_statsinfo]. *)
Record timer_statsinfo := mk_stats {
  min : double;
  max : double;
  mean : double;
  std : double
}.

(** The members of Cabana's [HDF5Config] that the solver reads or writes. *)
Record HDF5Config := mk_config {
  subfiling : bool;
  align : bool;
  threshold : Z;
  alignment : Z;
  h5fuse_info : bool;
  h5fuse_local : bool;
  subfilenames : string
}.

(** The status [waitpid] stores: [WIFEXITED] with its [WEXITSTATUS], or
    anything else (killed by a signal). *)
Inductive wstatus :=
| Exited (code : Z)
| Terminated.

Definition WIFEXITED (st : wstatus) : bool :=
  match st with Exited _ => true | Terminated => false end.

Definition WEXITSTATUS (st : wstatus) : Z :=
  match st with Exited c => c | Terminated => 0 end.

Inductive event :=
| Printf_progress (time t_final : double) (stats : option timer_statsinfo)
| Printf_exit_code (ret : Z)
| Printf_abnormal
| Cout_no_output
| Integrate (dt gravity : double)           (* TimeIntegrator::step *)
| CommunicateParticles (halo_min : Z)
| OutputParticles (step : Z) (time : double) (* a call of outputParticles() *)
| WriteHDF5 (cfg : HDF5Config) (step : Z) (time : double)
| WriteSilo (step : Z) (time : double)
| Fork (argv : list string)                 (* fork(), the child execs argv *)
| Waitpid (status : wstatus)
| MPI_Abort (errorcode : Z).                (* on MPI_COMM_WORLD *)

(* ================================================================== *)
(** ** [Solver::timer_stats] *)

(** The first loop over [rtimers]: maximum, minimum and sum. *)
Definition stats_scan (st : timer_statsinfo) (x : double) : timer_statsinfo :=
  let st := if (max st <? x)%float then mk_stats (min st) x (mean st) (std st) else st in
  let st := if (x <? min st)%float then mk_stats x (max st) (mean st) (std st) else st in
  mk_stats (min st) (max st) (mean st + x)%float (std st).

(** The second loop: the sum of the squared deviations. *)
Definition stats_dev (st : timer_statsinfo) (x : double) : timer_statsinfo :=
  mk_stats (min st) (max st) (mean st)
           (std st + (x - mean st) * (x - mean st))%float.

(** [samples] holds the [timer] argument of every rank of [comm], in rank
    order: this rank's own is [nth rank samples], [nprocs] is the length,
    and [MPI_Gather] hands the whole list to [destrank] as [rtimers].
    [stats] is written on [destrank] only. *)
Definition timer_stats (samples : list double) (rank destrank : Z)
    (stats : option timer_statsinfo) : option timer_statsinfo :=
  let timer := nth (Z.to_nat rank) samples 0%float in
  let nprocs := Z.of_nat (List.length samples) in
  if rank =? destrank then
    let st := mk_stats timer timer 0%float 0%float in
    let rtimers := samples in
    let st := fold_left stats_scan rtimers st in
    let st := mk_stats (min st) (max st) (mean st / double_of_int nprocs)%float (std st) in
    let st := fold_left stats_dev rtimers st in
    Some (mk_stats (min st) (max st) (mean st)
                   (PrimFloat.sqrt (std st / double_of_int nprocs)))
  else stats.

(* ================================================================== *)
(** ** The solver *)

Section Program.

(** The type of the problem manager's particle and grid storage. *)
Context {PM : Type}.

(** [Solver]'s data members, then the global [nfork]. *)
Record State := mk_state {
  _dt : double;
  _time : double;
  _step : Z;
  _gravity : double;
  _halo_min : Z;
  _pm : PM;
  _rank : Z;
  shmrank : option Z;
  io_stats : option timer_statsinfo;
  nfork : Z
}.

Definition with_dt (v : double) (s : State) : State :=
  mk_state v (_time s) (_step s) (_gravity s) (_halo_min s) (_pm s) (_rank s)
           (shmrank s) (io_stats s) (nfork s).
Definition with_time (v : double) (s : State) : State :=
  mk_state (_dt s) v (_step s) (_gravity s) (_halo_min s) (_pm s) (_rank s)
           (shmrank s) (io_stats s) (nfork s).
Definition with_step (v : Z) (s : State) : State :=
  mk_state (_dt s) (_time s) v (_gravity s) (_halo_min s) (_pm s) (_rank s)
           (shmrank s) (io_stats s) (nfork s).
Definition with_pm (v : PM) (s : State) : State :=
  mk_state (_dt s) (_time s) (_step s) (_gravity s) (_halo_min s) v (_rank s)
           (shmrank s) (io_stats s) (nfork s).
Definition with_shmrank (v : option Z) (s : State) : State :=
  mk_state (_dt s) (_time s) (_step s) (_gravity s) (_halo_min s) (_pm s)
           (_rank s) v (io_stats s) (nfork s).
Definition with_io_stats (v : option timer_statsinfo) (s : State) : State :=
  mk_state (_dt s) (_time s) (_step s) (_gravity s) (_halo_min s) (_pm s)
           (_rank s) (shmrank s) v (nfork s).
Definition with_nfork (v : Z) (s : State) : State :=
  mk_state (_dt s) (_time s) (_step s) (_gravity s) (_halo_min s) (_pm s)
           (_rank s) (shmrank s) (io_stats s) v.

(** Everything the header takes from elsewhere. *)
Record World := mk_world {
  (* build configuration *)
  Cabana_ENABLE_HDF5 : bool;
  Cabana_ENABLE_SILO : bool;
  (* process environment and libc *)
  getenv : string -> option string;
  atoi : string -> Z;
  (* a default-constructed HDF5Config *)
  h5_default : HDF5Config;
  (* MPI: this process's rank in MPI_COMM_WORLD, its rank in the
     communicator MPI_Comm_split_type( MPI_COMM_TYPE_SHARED ) returns, and,
     for the output of a given step, the seconds t2 - t1 every rank of
     MPI_COMM_WORLD measured, in rank order *)
  world_rank : Z;
  shm_rank : Z;
  write_seconds : Z -> list double;
  (* collaborators *)
  timeStepControl : PM -> double -> double;
  TimeIntegrator_step : PM -> double -> double -> PM;
  communicateParticles : PM -> Z -> PM;
  (* Cabana's HDF5 writeTimeStep: the subfile names it leaves in
     h5_config.subfilenames *)
  writeTimeStep : HDF5Config -> Z -> double -> PM -> string;
  (* the subfiling configuration file of an HDF5 file: stat() and the
     H5FD_SUBFILING_CONFIG_FILENAME_TEMPLATE *)
  config_filename : string -> string -> string;
  (* the status the i-th waitpid( -1, &status, 0 ) of a reap delivers *)
  waitpid : nat -> wstatus;
  (* what an int member holds when it is read before any assignment *)
  indeterminate : Z
}.

(* ================================================================== *)
(** ** A state, fault and trace monad *)

Definition M (A : Type) : Type := State -> result A * State * list event.

Definition ret {A} (a : A) : M A := fun s => (Val a, s, []).

Definition bind {A B} (m : M A) (k : A -> M B) : M B :=
  fun s =>
    match m s with
    | (Val a, s1, t1) =>
        match k a s1 with
        | (r, s2, t2) => (r, s2, t1 ++ t2)
        end
    | (Fault f, s1, t1) => (Fault f, s1, t1)
    end.

Definition get : M State := fun s => (Val s, s, []).
Definition modify (f : State -> State) : M unit := fun s => (Val tt, f s, []).
Definition emit (e : event) : M unit := fun s => (Val tt, s, [e]).
Definition lift {A} (r : result A) : M A := fun s => (r, s, []).
Definition raise {A} (f : fault) : M A := fun s => (Fault f, s, []).

Notation "x <- m ;; k" := (bind m (fun x => k))
  (at level 61, m at next level, right associativity).
Notation "m ;; k" := (bind m (fun _ => k))
  (at level 61, right associativity).

Variable W : World.

(** *** [Solver::Solver]

    The initialiser list sets [_dt], [_time], [_step], [_gravity] and
    [_halo_min]; the body builds the mesh and the problem manager and asks MPI
    for [_rank].  [shmrank] and [io_stats] are left as they are.  [nfork] has
    static storage: it is zero when the process starts.  The constructor
    does not assign it: [Solver_new] is the state of the first solver of a
    process, and a solver built when the counter holds [n] starts from
    [with_nfork n (Solver_new ...)]. *)
Definition Solver_new (delta_t gravity : double) (pm : PM) (rank : Z) : State :=
  mk_state delta_t 0%float 0 gravity 3 pm rank None None 0.

(** *** [Solver::outputParticles] *)

Definition is_set (v : option string) : bool :=
  match v with Some _ => true | None => false end.

(** [h5_config] after the three blocks that read the environment. *)
Definition h5_config_of_env : HDF5Config :=
  let c := h5_default W in
  let c := if is_set (getenv W "H5FD_SUBFILING")
           then mk_config true (align c) (threshold c) (alignment c)
                          (h5fuse_info c) (h5fuse_local c) (subfilenames c)
           else c in
  let c := match getenv W "H5FD_SUBFILING_STRIPE_SIZE" with
           | Some env_val =>
               mk_config (subfiling c) true 0 (atoi W env_val)
                         (h5fuse_info c) (h5fuse_local c) (subfilenames c)
           | None => c
           end in
  if is_set (getenv W "H5FUSE")
  then mk_config (subfiling c) (align c) (threshold c) (alignment c) true
                 (if is_set (getenv W "LOC") then true else h5fuse_local c)
                 (subfilenames c)
  else c.

Definition with_subfilenames (names : string) (c : HDF5Config) : HDF5Config :=
  mk_config (subfiling c) (align c) (threshold c) (alignment c)
            (h5fuse_info c) (h5fuse_local c) names.

(** The child's [config_filename]. *)
Definition h5fuse_config (step : Z) : string :=
  let filename_hdf5 :=
    String.append "particles" (String.append "_" (String.append (string_of_int step) ".h5")) in
  let config_dir :=
    match getenv W "H5FD_SUBFILING_CONFIG_FILE_PREFIX" with
    | Some env_value => env_value
    | None => "."
    end in
  config_filename W config_dir filename_hdf5.

(** [pid = fork(); nfork++;] seen from the parent; the child replaces itself
    with [argv]. *)
Definition fork_h5fuse (argv : list string) : M unit :=
  emit (Fork argv) ;;
  s <- get ;;
  n <- lift (int_incr (nfork s)) ;;
  modify (with_nfork n).

Definition outputParticles : M unit :=
  s <- get ;;
  emit (OutputParticles (_step s) (_time s)) ;;
  if Cabana_ENABLE_HDF5 W then
    let h5_config := h5_config_of_env in
    emit (WriteHDF5 h5_config (_step s) (_time s)) ;;
    let h5_config :=
      with_subfilenames (writeTimeStep W h5_config (_step s) (_time s) (_pm s))
                        h5_config in
    modify (fun s => with_io_stats
                       (timer_stats (write_seconds W (_step s)) (world_rank W) 0
                                    (io_stats s)) s) ;;
    if is_set (getenv W "H5FUSE") then
      if subfiling h5_config then
        if negb (h5fuse_local h5_config) then
          if negb (String.eqb (subfilenames h5_config) "") then
            fork_h5fuse ["./h5fuse"; "-l"; subfilenames h5_config; "-f";
                         h5fuse_config (_step s)]
          else ret tt
        else
          modify (with_shmrank (Some (shm_rank W))) ;;
          (* One rank from each node executes h5fuse *)
          if shm_rank W =? 0 then
            fork_h5fuse ["./h5fuse"; "-r"; "-f"; h5fuse_config (_step s)]
          else ret tt
      else ret tt
    else ret tt
  else if Cabana_ENABLE_SILO W then
    emit (WriteSilo (_step s) (_time s))
  else
    if _rank s =? 0 then emit Cout_no_output else ret tt.

(** *** [Solver::solve] *)

(** Lines 88-92: the progress line of rank 0. *)
Definition progress_line (t_final : double) (write_freq : Z) : M unit :=
  s <- get ;;
  if 0 =? _rank s then
    r <- lift (int_rem (_step s) write_freq) ;;
    if 0 =? r then emit (Printf_progress (_time s) t_final (io_stats s))
    else ret tt
  else ret tt.

(** Lines 97-98. *)
Definition control_dt : M unit :=
  modify (fun s => with_dt (timeStepControl W (_pm s) (_dt s)) s).

(** Line 100. *)
Definition integrate : M unit :=
  s <- get ;;
  emit (Integrate (_dt s) (_gravity s)) ;;
  modify (with_pm (TimeIntegrator_step W (_pm s) (_dt s) (_gravity s))).

(** Line 102. *)
Definition communicate : M unit :=
  s <- get ;;
  emit (CommunicateParticles (_halo_min s)) ;;
  modify (with_pm (communicateParticles W (_pm s) (_halo_min s))).

(** Lines 104-105. *)
Definition advance : M unit :=
  modify (fun s => with_time (_time s + _dt s)%float s) ;;
  s <- get ;;
  n <- lift (int_incr (_step s)) ;;
  modify (with_step n).

(** Lines 108-109. *)
Definition periodic_output (write_freq : Z) : M unit :=
  s <- get ;;
  r <- lift (int_rem (_step s) write_freq) ;;
  if 0 =? r then outputParticles else ret tt.

Definition loop_body (t_final : double) (write_freq : Z) : M unit :=
  progress_line t_final write_freq ;;
  control_dt ;;
  integrate ;;
  communicate ;;
  advance ;;
  periodic_output write_freq.

(** [while ( _time < t_final )], run for at most [fuel] iterations. *)
Fixpoint time_loop (fuel : nat) (t_final : double) (write_freq : Z) : M unit :=
  fun s =>
    if (_time s <? t_final)%float then
      match fuel with
      | O => (Fault OutOfFuel, s, [])
      | S fuel' =>
          (loop_body t_final write_freq ;; time_loop fuel' t_final write_freq) s
      end
    else (Val tt, s, []).

(** The value the test [shmrank == 0] reads. *)
Definition read_shmrank (s : State) : Z :=
  match shmrank s with
  | Some v => v
  | None => indeterminate W
  end.

(** One turn of [for ( int i = 0; i < nfork; i++ )]. *)
Definition reap_one (i : nat) : M unit :=
  let status := waitpid W i in
  emit (Waitpid status) ;;
  if WIFEXITED status then
    let ret_ := WEXITSTATUS status in
    if negb (ret_ =? 0) then
      emit (Printf_exit_code ret_) ;;
      emit (MPI_Abort (-1)) ;;
      raise MPI_Aborted
    else ret tt
  else
    emit Printf_abnormal ;;
    emit (MPI_Abort (-1)) ;;
    raise MPI_Aborted.

(** The turns [i], [i+1], ..., [i+n-1]. *)
Fixpoint reap_from (i n : nat) : M unit :=
  match n with
  | O => ret tt
  | S n' => reap_one i ;; reap_from (S i) n'
  end.

(** Lines 113-137. *)
Definition reap : M unit :=
  s <- get ;;
  if read_shmrank s =? 0 then reap_from 0 (Z.to_nat (nfork s)) else ret tt.

Definition solve (fuel : nat) (t_final : double) (write_freq : Z) : M unit :=
  outputParticles ;;
  time_loop fuel t_final write_freq ;;
  reap.

End Program.

Arguments State : clear implicits.
Arguments World : clear implicits.
Arguments M : clear implicits.

(* ================================================================== *)
(** ** What a trace shows *)

(** The time steps handed to the integrator, in order. *)
Definition dts (t : list event) : list double :=
  flat_map (fun e => match e with Integrate dt _ => [dt] | _ => [] end) t.

(** The step counter at each call of [outputParticles]. *)
Definition output_steps (t : list event) : list Z :=
  flat_map (fun e => match e with OutputParticles k _ => [k] | _ => [] end) t.

(** The commands of the background processes launched. *)
Definition forks (t : list event) : list (list string) :=
  flat_map (fun e => match e with Fork argv => [argv] | _ => [] end) t.

(** The exit statuses the reap looked at. *)
Definition waits (t : list event) : list wstatus :=
  flat_map (fun e => match e with Waitpid st => [st] | _ => [] end) t.

(** The calls of [MPI_Abort]. *)
Definition aborts (t : list event) : list Z :=
  flat_map (fun e => match e with MPI_Abort c => [c] | _ => [] end) t.

(** The steps whose particles a backend wrote. *)
Definition written (t : list event) : list Z :=
  flat_map (fun e => match e with
                     | WriteHDF5 _ k _ | WriteSilo k _ => [k]
                     | _ => []
                     end) t.

(** A background process that did not exit with status 0. *)
Definition failed (st : wstatus) : bool :=
  match st with
  | Exited c => negb (c =? 0)
  | Terminated => true
  end.

(* ================================================================== *)
(** ** The job: one process per rank of MPI_COMM_WORLD *)

(** [MPI_Comm_split_type( MPI_COMM_WORLD, MPI_COMM_TYPE_SHARED, 0, ... )]
    followed by [MPI_Comm_rank]: every rank passes the key 0, so the ranks of
    one node keep the order they have in MPI_COMM_WORLD.  [nodes] gives the
    node of each world rank. *)
Definition split_shared_rank (nodes : list Z) (r : nat) : Z :=
  Z.of_nat (count_occ Z.eq_dec (firstn r nodes) (nth r nodes 0)).

(** The world of rank [r] of a job laid out as [nodes]: the build, the
    environment and the collaborators of [W], the ranks of [r]. *)
Definition at_rank {PM} (W : World PM) (nodes : list Z) (r : nat) : World PM :=
  mk_world (Cabana_ENABLE_HDF5 W) (Cabana_ENABLE_SILO W) (getenv W) (atoi W)
           (h5_default W) (Z.of_nat r) (split_shared_rank nodes r)
           (write_seconds W) (timeStepControl W) (TimeIntegrator_step W)
           (communicateParticles W) (writeTimeStep W) (config_filename W)
           (waitpid W) (indeterminate W).

(** The background processes rank [r] launches in one call of
    [outputParticles] from the state [s]. *)
Definition launches {PM} (W : World PM) (nodes : list Z) (r : nat)
    (s : State PM) : list (list string) :=
  forks (snd (outputParticles (at_rank W nodes r) s)).

(** The manifest the writer reports to a process in state [s]. *)
Definition manifest {PM} (W : World PM) (s : State PM) : string :=
  writeTimeStep W (h5_config_of_env W) (_step s) (_time s) (_pm s).

(* ================================================================== *)
(** ** [createSolver] *)

(** The [KOKKOS_ENABLE_*] macros of the build. *)
Record Kokkos := mk_kokkos {
  KOKKOS_ENABLE_SERIAL : bool;
  KOKKOS_ENABLE_OPENMP : bool;
  KOKKOS_ENABLE_CUDA : bool;
  KOKKOS_ENABLE_HIP : bool
}.

(** The four instantiations [Solver<MemorySpace, ExecutionSpace>]. *)
Inductive Spaces :=
| HostSpace_Serial
| HostSpace_OpenMP
| CudaSpace_Cuda
| HIPSpace_HIP.

(** [createSolver] returns a solver or throws [std::runtime_error]. *)
Inductive created (PM : Type) :=
| make_shared (sp : Spaces) (s : State PM)
| runtime_error (what : string).
Arguments make_shared {PM} sp s.
Arguments runtime_error {PM} what.

Definition compare0 (device name : string) : bool := String.eqb device name.

Definition createSolver {PM} (K : Kokkos) (device : string)
    (delta_t gravity : double) (pm : PM) (rank : Z) : created PM :=
  if compare0 device "serial" || compare0 device "Serial" || compare0 device "SERIAL" then
    if KOKKOS_ENABLE_SERIAL K
    then make_shared HostSpace_Serial (Solver_new delta_t gravity pm rank)
    else runtime_error "Serial Backend Not Enabled"
  else if compare0 device "openmp" || compare0 device "OpenMP" || compare0 device "OPENMP" then
    if KOKKOS_ENABLE_OPENMP K
    then make_shared HostSpace_OpenMP (Solver_new delta_t gravity pm rank)
    else runtime_error "OpenMP Backend Not Enabled"
  else if compare0 device "cuda" || compare0 device "Cuda" || compare0 device "CUDA" then
    if KOKKOS_ENABLE_CUDA K
    then make_shared CudaSpace_Cuda (Solver_new delta_t gravity pm rank)
    else runtime_error "CUDA Backend Not Enabled"
  else if compare0 device "hip" || compare0 device "Hip" || compare0 device "HIP" then
    if KOKKOS_ENABLE_HIP K
    then make_shared HIPSpace_HIP (Solver_new delta_t gravity pm rank)
    else runtime_error "HIP Backend Not Enabled"
  else runtime_error "invalid backend".

(** The spellings [createSolver] compares [device] with, per backend. *)
Definition spellings (sp : Spaces) : list string :=
  match sp with
  | HostSpace_Serial => ["serial"; "Serial"; "SERIAL"]
  | HostSpace_OpenMP => ["openmp"; "OpenMP"; "OPENMP"]
  | CudaSpace_Cuda => ["cuda"; "Cuda"; "CUDA"]
  | HIPSpace_HIP => ["hip"; "Hip"; "HIP"]
  end.

Definition enabled (K : Kokkos) (sp : Spaces) : bool :=
  match sp with
  | HostSpace_Serial => KOKKOS_ENABLE_SERIAL K
  | HostSpace_OpenMP => KOKKOS_ENABLE_OPENMP K
  | CudaSpace_Cuda => KOKKOS_ENABLE_CUDA K
  | HIPSpace_HIP => KOKKOS_ENABLE_HIP K
  end.

Definition not_enabled (sp : Spaces) : string :=
  match sp with
  | HostSpace_Serial => "Serial Backend Not Enabled"
  | HostSpace_OpenMP => "OpenMP Backend Not Enabled"
  | CudaSpace_Cuda => "CUDA Backend Not Enabled"
  | HIPSpace_HIP => "HIP Backend Not Enabled"
  end.

(* ================================================================== *)
(** ** Vocabulary of the statements *)

(** The run got past the time loop: [solve] returned, or the reap aborted
    the job.  The other faults arise before the reap. *)
Definition loop_exited (r : result unit) : bool :=
  match r with
  | Val _ | Fault MPI_Aborted => true
  | Fault _ => false
  end.

(** The run met nothing that the language leaves undefined. *)
Definition defined (r : result unit) : bool :=
  match r with
  | Fault (Undefined _) => false
  | _ => true
  end.

(** The values [a+1], ..., [b] of the step counter. *)
Definition steps_between (a b : Z) : list Z :=
  map (fun i => a + Z.of_nat i) (seq 1 (Z.to_nat (b - a))).

(** [dt] is something the time step control returned. *)
Definition controller_output {PM} (W : World PM) (dt : double) : Prop :=
  exists pm d, dt = timeStepControl W pm d.

(** [outputParticles] takes the branch that assigns [shmrank]: HDF5 output,
    [H5FUSE] set, subfiling on, local fusion selected. *)
Definition local_fuse {PM} (W : World PM) : bool :=
  Cabana_ENABLE_HDF5 W && is_set (getenv W "H5FUSE")
  && subfiling (h5_config_of_env W) && h5fuse_local (h5_config_of_env W).

(** What a call of [outputParticles] leaves alone. *)
Definition same_clock {PM} (s s' : State PM) : Prop :=
  _dt s' = _dt s /\ _time s' = _time s /\ _step s' = _step s /\
  _pm s' = _pm s /\ _rank s' = _rank s /\ _gravity s' = _gravity s /\
  _halo_min s' = _halo_min s.

(** The reap integrates, writes and forks nothing. *)
Definition quiet (t : list event) : Prop :=
  dts t = [] /\ output_steps t = [] /\ forks t = [].

(** [a] is [b] or lies below it. *)
Definition below (a b : double) : Prop := a = b \/ (a <? b)%float = true.

Definition no_nan (l : list double) : Prop :=
  forall x, In x l -> is_nan x = false.

(* ================================================================== *)
(** ** Concrete worlds for the examples *)

(** The environment in which exactly [vars] are set. *)
Definition env_of (vars : list string) (name : string) : option string :=
  if existsb (String.eqb name) vars then Some "1" else None.

Definition no_config : HDF5Config := mk_config false false 0 0 false false "".

(** A time step control that keeps [d] when it lies in (0, max_dt] and
    answers [max_dt] otherwise. *)
Definition clamp (max_dt d : double) : double :=
  if ((0 <? d) && (d <=? max_dt))%float then d else max_dt.

(** An HDF5 build with no particles and the time step control [control]:
    the environment sets [vars], the writer reports the subfile names [names]
    to every caller, this process has rank 0 in MPI_COMM_WORLD and [shm] on
    its node, four ranks measure 1, 2, 3 and 4 seconds per write, the [i]-th
    wait delivers [status i], and an unassigned [int] reads as [junk]. *)
Definition test_world (control : double -> double) (vars : list string)
    (names : string) (shm : Z) (status : nat -> wstatus) (junk : Z) : World unit :=
  mk_world true false (env_of vars) (fun _ => 0) no_config 0 shm
           (fun _ => [1; 2; 3; 4]%float)
           (fun _ d => control d) (fun pm _ _ => pm) (fun pm _ => pm)
           (fun _ _ _ _ => names)
           (fun dir file => String.append dir (String.append "/" file))
           status junk.

(** The time step control keeps the time step within (0, 1/4]. *)
Definition demo_world := test_world (clamp 0.25%float).

(** The double next to 3/10. *)
Definition three_tenths : double := 0x1.3333333333333p-2%float.

Definition all_exit_0 (i : nat) : wstatus := Exited 0.

(** The second process reaped exits with status 3. *)
Definition second_fails (i : nat) : wstatus :=
  match i with 1%nat => Exited 3 | _ => Exited 0 end.

Definition local_fusion : list string := ["H5FD_SUBFILING"; "H5FUSE"; "LOC"].
Definition global_fusion : list string := ["H5FD_SUBFILING"; "H5FUSE"].

(** Eight ranks on two nodes of four. *)
Definition two_nodes : list Z := [0; 0; 0; 0; 1; 1; 1; 1].

(** A new solver with a time step of 1/4 and no gravity. *)
Definition demo_solver (rank : Z) : State unit :=
  Solver_new 0.25%float 0%float tt rank.

(** The three components of a run. *)
Definition outcome {PM A} (x : result A * State PM * list event) : result A :=
  fst (fst x).
Definition final {PM A} (x : result A * State PM * list event) : State PM :=
  snd (fst x).
Definition trace {PM A} (x : result A * State PM * list event) : list event :=
  snd x.

(** Up to t = 1 in steps of 1/4, output every second step, no fusion. *)
Definition run_quarters :=
  solve (demo_world [] "" 0 all_exit_0 0) 10 1%float 2 (demo_solver 0).

(** The same with NaN for [t_final]. *)
Definition run_nan :=
  solve (demo_world [] "" 0 all_exit_0 0) 10 nan 2 (demo_solver 0).

(** Rank 4 of [two_nodes], the first rank of the second node, with local
    fusion: up to t = 1/2, output at every step. *)
Definition run_leader4 :=
  solve (at_rank (demo_world local_fusion "" 0 all_exit_0 0) two_nodes 4)
        10 0.5%float 1 (demo_solver 4).

(** Rank 0 with global fusion; the writer reports a subfile, and the
    unassigned [shmrank] reads as 7. *)
Definition run_global :=
  solve (demo_world global_fusion "particles.h5.subfile_1_of_1" 0 all_exit_0 7)
        10 0.5%float 1 (demo_solver 0).

(** Local fusion on a node leader whose second fuser fails. *)
Definition run_failure :=
  solve (demo_world local_fusion "" 0 second_fails 0) 10 1%float 2 (demo_solver 0).

(** Up to t = 1 with a time step of 3/10 that the control returns
    unchanged, output every second step. *)
Definition run_three_tenths :=
  solve (test_world (fun d => d) [] "" 0 all_exit_0 0) 10 1%float 2
        (Solver_new three_tenths 0%float tt 0).

(** [write_freq] 0 on rank 1. *)
Definition run_zero_freq :=
  solve (demo_world [] "" 0 all_exit_0 0) 10 1%float 0 (demo_solver 1).

(* ================================================================== *)
(** ** Vocabulary of the further properties *)

(** The statistics each progress line printed. *)
Definition progress_lines (t : list event) : list (option timer_statsinfo) :=
  flat_map (fun e => match e with Printf_progress _ _ st => [st] | _ => [] end) t.

(** Every integration is for gravity [g] and is followed at once by the
    redistribution of the particles with halo width [h]; no redistribution
    happens otherwise. *)
Fixpoint stepped (g : double) (h : Z) (t : list event) : Prop :=
  match t with
  | [] => True
  | Integrate _ g' :: t1 =>
      match t1 with
      | CommunicateParticles h' :: t2 => g' = g /\ h' = h /\ stepped g h t2
      | _ => False
      end
  | CommunicateParticles _ :: _ => False
  | _ :: t1 => stepped g h t1
  end.

(** From a state that satisfies [pre], the action leaves a state that
    satisfies [post] and a trace that satisfies [Q], whatever its outcome. *)
Definition keeps {PM A} (pre post : State PM -> Prop) (Q : list event -> Prop)
    (m : M PM A) : Prop :=
  forall s r s' t, pre s -> m s = (r, s', t) -> post s' /\ Q t.

(** [outputParticles] reaches the code that may launch [h5fuse]: HDF5
    output, [H5FUSE] set, subfiling on. *)
Definition fusion_on {PM} (W : World PM) : bool :=
  Cabana_ENABLE_HDF5 W && is_set (getenv W "H5FUSE")
  && subfiling (h5_config_of_env W).

(** The arguments of the node-local fuser for the output of [step]
    (lines 281-283). *)
Definition local_h5fuse {PM} (W : World PM) (step : Z) : list string :=
  ["./h5fuse"; "-r"; "-f"; h5fuse_config W step].

(** Every run of the action relates the state before, the trace and the
    state after by [R], whatever its outcome. *)
Definition relates {PM A} (R : State PM -> list event -> State PM -> Prop)
    (m : M PM A) : Prop :=
  forall s r s' t, m s = (r, s', t) -> R s t s'.

(** Lines 97-102 as a function of the particle data and the step size: the
    step size is controlled, the particles are integrated with it and then
    redistributed. *)
Definition time_step {PM} (W : World PM) (g : double) (h : Z)
    (x : PM * double) : PM * double :=
  let dt := timeStepControl W (fst x) (snd x) in
  (communicateParticles W (TimeIntegrator_step W (fst x) dt g) h, dt).

(** [f x], [f (f x)], ..., [n] values. *)
Fixpoint orbit {X} (f : X -> X) (n : nat) (x : X) : list X :=
  match n with
  | O => []
  | S n' => f x :: orbit f n' (f x)
  end.

(** What [timeStepControl] returns at line 97 in the first [n] iterations
    of a loop that starts with the particle data [pm] and the step size
    [d]. *)
Definition controller_outputs {PM} (W : World PM) (g : double) (h : Z)
    (n : nat) (pm : PM) (d : double) : list double :=
  map snd (orbit (time_step W g h) n (pm, d)).

(** [0 < d <= max_dt]. *)
Definition in_range (max_dt d : double) : Prop :=
  (0 <? d)%float = true /\ (d <=? max_dt)%float = true.

(** The steps whose particles the HDF5 backend wrote. *)
Definition written_hdf5 (t : list event) : list Z :=
  flat_map (fun e => match e with WriteHDF5 _ k _ => [k] | _ => [] end) t.

(** How often the notice of lines 300-303 was printed. *)
Definition notices (t : list event) : nat :=
  List.length
    (flat_map (fun e => match e with Cout_no_output => [tt] | _ => [] end) t).

(** [W'] differs from [W] in the environment at most: the build and every
    collaborator of the solver answer alike in both. *)
Definition same_collaborators {PM} (W W' : World PM) : Prop :=
  Cabana_ENABLE_HDF5 W' = Cabana_ENABLE_HDF5 W /\
  Cabana_ENABLE_SILO W' = Cabana_ENABLE_SILO W /\
  atoi W' = atoi W /\
  h5_default W' = h5_default W /\
  world_rank W' = world_rank W /\
  shm_rank W' = shm_rank W /\
  write_seconds W' = write_seconds W /\
  timeStepControl W' = timeStepControl W /\
  TimeIntegrator_step W' = TimeIntegrator_step W /\
  communicateParticles W' = communicateParticles W /\
  writeTimeStep W' = writeTimeStep W /\
  config_filename W' = config_filename W /\
  waitpid W' = waitpid W /\
  indeterminate W' = indeterminate W.

(** The environments of [W] and [W'] agree on what the calls of
    [std::getenv] in this file see: whether [H5FD_SUBFILING] and [H5FUSE] are
    set, the values of [H5FD_SUBFILING_STRIPE_SIZE] and
    [H5FD_SUBFILING_CONFIG_FILE_PREFIX] and, when [H5FUSE] is set, whether
    [LOC] is set. *)
Definition same_reads {PM} (W W' : World PM) : Prop :=
  is_set (getenv W' "H5FD_SUBFILING") = is_set (getenv W "H5FD_SUBFILING") /\
  getenv W' "H5FD_SUBFILING_STRIPE_SIZE" = getenv W "H5FD_SUBFILING_STRIPE_SIZE" /\
  is_set (getenv W' "H5FUSE") = is_set (getenv W "H5FUSE") /\
  (is_set (getenv W "H5FUSE") = true ->
   is_set (getenv W' "LOC") = is_set (getenv W "LOC")) /\
  getenv W' "H5FD_SUBFILING_CONFIG_FILE_PREFIX"
  = getenv W "H5FD_SUBFILING_CONFIG_FILE_PREFIX".

(** [W] with the environment [env]. *)
Definition with_getenv {PM} (env : string -> option string) (W : World PM) :
    World PM :=
  mk_world (Cabana_ENABLE_HDF5 W) (Cabana_ENABLE_SILO W) env
           (atoi W) (h5_default W) (world_rank W) (shm_rank W)
           (write_seconds W) (timeStepControl W) (TimeIntegrator_step W)
           (communicateParticles W) (writeTimeStep W) (config_filename W)
           (waitpid W) (indeterminate W).

(* ================================================================== *)
(** ** Further concrete worlds and runs *)

(** The build of [W] with Silo in place of HDF5. *)
Definition silo_build {PM} (W : World PM) : World PM :=
  mk_world false true (getenv W) (atoi W) (h5_default W) (world_rank W)
           (shm_rank W) (write_seconds W) (timeStepControl W)
           (TimeIntegrator_step W) (communicateParticles W) (writeTimeStep W)
           (config_filename W) (waitpid W) (indeterminate W).

(** [run_quarters] on rank 1. *)
Definition run_rank1 :=
  solve (demo_world [] "" 0 all_exit_0 0) 10 1%float 2 (demo_solver 1).

(** [run_quarters] in a Silo build. *)
Definition run_silo :=
  solve (silo_build (demo_world [] "" 0 all_exit_0 0)) 10 1%float 2
        (demo_solver 0).

(** [solve] called again on the solver [run_quarters] leaves, with the same
    [t_final] and another [write_freq]. *)
Definition run_again :=
  solve (demo_world [] "" 0 all_exit_0 0) 5 1%float 3 (final run_quarters).

(** [run_quarters] with [LOC] and [HOME] set. *)
Definition run_loc :=
  solve (demo_world ["LOC"; "HOME"] "" 0 all_exit_0 0) 10 1%float 2
        (demo_solver 0).

(** [run_quarters] in a build with neither HDF5 nor Silo. *)
Definition run_no_backend :=
  solve (mk_world false false (env_of []) (fun _ => 0) no_config 0 0
                  (fun _ => [1; 2; 3; 4]%float)
                  (fun _ d => clamp 0.25%float d) (fun pm _ _ => pm)
                  (fun pm _ => pm) (fun _ _ _ _ => "")
                  (fun dir file => String.append dir (String.append "/" file))
                  all_exit_0 0)
        10 1%float 2 (demo_solver 0).

(** The process of [run_leader4] creates a second solver for "Serial" once
    that run is over and runs it the same way: [nfork] still holds what the
    first run left. *)
Definition run_later :=
  match createSolver (mk_kokkos true false false false) "Serial"
                     0.25%float 0%float tt 4 with
  | make_shared _ s =>
      solve (at_rank (demo_world local_fusion "" 0 all_exit_0 0) two_nodes 4)
            10 0.5%float 1 (with_nfork (nfork (final run_leader4)) s)
  | runtime_error _ => (Fault OutOfFuel, demo_solver 4, [])
  end.

(* ================================================================== *)
(** * Properties *)

(** ** The order of binary64 *)

Lemma SFcompare_antisym (x y : spec_float) :
  SFcompare y x = option_map CompOpp (SFcompare x y).
Proof.
  destruct x as [sx|sx| |sx mx ex], y as [sy|sy| |sy my ey]; simpl;
    try reflexivity;
    try (destruct sx; reflexivity); try (destruct sy; reflexivity);
    try (destruct sx, sy; reflexivity).
  change (Pos.compare_cont Eq mx my) with (Pos.compare mx my).
  change (Pos.compare_cont Eq my mx) with (Pos.compare my mx).
  destruct sx, sy; simpl; try reflexivity;
    rewrite (Z.compare_antisym ex ey); destruct (ex ?= ey)%Z; simpl;
    try reflexivity;
    rewrite (Pos.compare_antisym mx my); destruct (mx ?= my)%positive;
    reflexivity.
Qed.

Lemma SFcompare_Lt_trans (x y z : spec_float) :
  SFcompare x y = Some Lt -> SFcompare y z = Some Lt -> SFcompare x z = Some Lt.
Proof.
  destruct x as [sx|sx| |sx mx ex], y as [sy|sy| |sy my ey],
      z as [sz|sz| |sz mz ez]; simpl; try discriminate;
    repeat match goal with b : bool |- _ => destruct b end; simpl;
    try discriminate; try reflexivity.
  all: change (Pos.compare_cont Eq) with Pos.compare.
  all: destruct (Z.compare_spec ex ey), (Z.compare_spec ey ez),
         (Z.compare_spec ex ez);
    try discriminate; try reflexivity; try lia; subst.
  all: destruct (Pos.compare_spec mx my), (Pos.compare_spec my mz),
         (Pos.compare_spec mx mz);
    simpl; try discriminate; try reflexivity; try lia.
Qed.

Lemma SFcompare_refl (x : spec_float) :
  SFcompare x x = Some Eq \/ SFcompare x x = None.
Proof.
  destruct x as [s|s| |s m e]; simpl; auto; try (destruct s; auto; fail).
  change (Pos.compare_cont Eq m m) with (Pos.compare m m).
  rewrite Z.compare_refl, Pos.compare_refl. destruct s; auto.
Qed.

Lemma ltb_trans (x y z : float) :
  (x <? y)%float = true -> (y <? z)%float = true -> (x <? z)%float = true.
Proof.
  rewrite !ltb_spec. unfold SFltb.
  destruct (SFcompare (Prim2SF x) (Prim2SF y)) as [[]|] eqn:E1; try discriminate.
  destruct (SFcompare (Prim2SF y) (Prim2SF z)) as [[]|] eqn:E2; try discriminate.
  intros _ _. now rewrite (SFcompare_Lt_trans _ _ _ E1 E2).
Qed.

Lemma ltb_irrefl (x : float) : (x <? x)%float = false.
Proof.
  rewrite ltb_spec. unfold SFltb.
  now destruct (SFcompare_refl (Prim2SF x)) as [-> | ->].
Qed.

Lemma not_nan_compare (x y : float) :
  is_nan x = false -> is_nan y = false ->
  exists c, SFcompare (Prim2SF x) (Prim2SF y) = Some c.
Proof.
  unfold is_nan. rewrite !eqb_spec. unfold SFeqb.
  destruct (Prim2SF x), (Prim2SF y); simpl; try discriminate; eauto.
Qed.

(** Away from NaN the order is total. *)
Lemma ltb_false_leb (x y : float) :
  is_nan x = false -> is_nan y = false ->
  (x <? y)%float = false -> (y <=? x)%float = true.
Proof.
  intros Hx Hy. destruct (not_nan_compare x y Hx Hy) as (c & Hc).
  rewrite ltb_spec, leb_spec. unfold SFltb, SFleb.
  rewrite (SFcompare_antisym (Prim2SF x) (Prim2SF y)), Hc.
  destruct c; simpl; congruence.
Qed.

Lemma below_trans a b c : below a b -> below b c -> below a c.
Proof.
  intros [->|H1] [->|H2]; unfold below; auto. right. eapply ltb_trans; eauto.
Qed.

Lemma not_ltb_below x a b :
  (x <? b)%float = false -> below a b -> (x <? a)%float = false.
Proof.
  intros H [->|Hab]; auto.
  destruct (x <? a)%float eqn:E; auto.
  now rewrite (ltb_trans _ _ _ E Hab) in H.
Qed.

Lemma not_ltb_above x a b :
  (b <? x)%float = false -> below b a -> (a <? x)%float = false.
Proof.
  intros H [->|Hab]; auto.
  destruct (a <? x)%float eqn:E; auto.
  now rewrite (ltb_trans _ _ _ Hab E) in H.
Qed.

Lemma clamp_bounds (d : double) :
  (0 <? clamp 0.25 d)%float = true /\ (clamp 0.25 d <=? 0.25)%float = true.
Proof.
  unfold clamp.
  destruct (0 <? d)%float eqn:E1; destruct (d <=? 0.25)%float eqn:E2;
    cbn [andb]; split; auto; reflexivity.
Qed.

(** ** The two loops of [timer_stats] *)

Lemma stats_scan_spec st x :
  let st' := stats_scan st x in
  (min st' = min st \/ min st' = x) /\ below (min st') (min st) /\
  (x <? min st')%float = false /\
  (max st' = max st \/ max st' = x) /\ below (max st) (max st') /\
  (max st' <? x)%float = false /\
  mean st' = (mean st + x)%float /\ std st' = std st.
Proof.
  unfold stats_scan, below.
  destruct (max st <? x)%float eqn:E1; cbn [min max mean std];
    destruct (x <? min st)%float eqn:E2; cbn [min max mean std];
    repeat split; auto using ltb_irrefl.
Qed.

Lemma scan_fold l : forall st,
  let st' := fold_left stats_scan l st in
  (min st' = min st \/ In (min st') l) /\ below (min st') (min st) /\
  (forall x, In x l -> (x <? min st')%float = false) /\
  (max st' = max st \/ In (max st') l) /\ below (max st) (max st') /\
  (forall x, In x l -> (max st' <? x)%float = false) /\
  mean st' = fold_left PrimFloat.add l (mean st) /\ std st' = std st.
Proof.
  induction l as [|x l IH]; intros st; simpl.
  - unfold below. repeat split; auto; contradiction.
  - destruct (stats_scan_spec st x) as (A1 & A2 & A3 & B1 & B2 & B3 & C & D).
    destruct (IH (stats_scan st x)) as (A1' & A2' & A3' & B1' & B2' & B3' & C' & D').
    repeat split.
    + destruct A1' as [->|]; [destruct A1 as [->| ->]|]; auto.
    + eapply below_trans; eauto.
    + intros y [<-|Hy]; [eapply not_ltb_below; eauto | auto].
    + destruct B1' as [->|]; [destruct B1 as [->| ->]|]; auto.
    + eapply below_trans; eauto.
    + intros y [<-|Hy]; [eapply not_ltb_above; eauto | auto].
    + now rewrite C', C.
    + now rewrite D', D.
Qed.

Lemma dev_fold l : forall st,
  let st' := fold_left stats_dev l st in
  min st' = min st /\ max st' = max st /\ mean st' = mean st /\
  std st' = fold_left (fun a x => a + (x - mean st) * (x - mean st))%float l (std st).
Proof.
  induction l as [|x l IH]; intros st; simpl; auto.
  destruct (IH (stats_dev st x)) as (A & B & C & D).
  rewrite A, B, C, D. simpl. auto.
Qed.

(** C8.  On the collector ([rank = destrank], one of the ranks that
    contributed a sample) [timer_stats] stores statistics [st] of all the
    samples: [min st] is a sample that no sample lies below, [max st] a sample
    that no sample lies above (so [min st <= x <= max st] for every sample
    [x] when no sample is NaN); [mean st] is the sum of the samples divided by
    their number; [std st] is the square root of the sum of the squared
    deviations from [mean st] divided by the number of samples, the division
    coming before the root.  All of it in double precision, summing in rank
    order from zero.  For the samples 1, 2, 3, 4 of four ranks, whichever of
    them collects, the result is min 1, max 4, mean 2.5 and std sqrt(1.25). *)
Theorem timer_stats_reduction (samples : list double) (destrank : Z)
    (stats : option timer_statsinfo) :
  0 <= destrank < Z.of_nat (List.length samples) ->
  exists st,
    timer_stats samples destrank destrank stats = Some st /\
    (In (min st) samples /\
     forall x, In x samples -> (x <? min st)%float = false) /\
    (In (max st) samples /\
     forall x, In x samples -> (max st <? x)%float = false) /\
    (no_nan samples ->
     forall x, In x samples ->
       (min st <=? x)%float = true /\ (x <=? max st)%float = true) /\
    mean st = (fold_left PrimFloat.add samples 0
               / double_of_int (Z.of_nat (List.length samples)))%float /\
    std st = PrimFloat.sqrt
               (fold_left (fun a x => a + (x - mean st) * (x - mean st)) samples 0
                / double_of_int (Z.of_nat (List.length samples)))%float /\
    (forall c, In c [0; 1; 2; 3] ->
       timer_stats [1; 2; 3; 4]%float c c stats
       = Some (mk_stats 1 4 2.5 (PrimFloat.sqrt 1.25))%float).
Proof.
  intros Hr. unfold timer_stats. rewrite Z.eqb_refl.
  set (n := double_of_int (Z.of_nat (List.length samples))).
  set (timer := nth (Z.to_nat destrank) samples 0%float).
  assert (Ht : In timer samples) by (apply nth_In; lia).
  set (st0 := mk_stats timer timer 0%float 0%float).
  destruct (scan_fold samples st0) as (A1 & A2 & A3 & B1 & B2 & B3 & C & D).
  set (st1 := fold_left stats_scan samples st0) in *.
  set (st2 := mk_stats (min st1) (max st1) (mean st1 / n)%float (std st1)).
  destruct (dev_fold samples st2) as (E1 & E2 & E3 & E4).
  set (st3 := fold_left stats_dev samples st2) in *.
  eexists. split; [reflexivity|].
  cbn [min max mean std].
  rewrite E1, E2, E3, E4. cbn [min max mean std st2].
  rewrite C, D. cbn [min max mean std st0].
  assert (Hmin : In (min st1) samples) by (destruct A1 as [->|]; auto).
  assert (Hmax : In (max st1) samples) by (destruct B1 as [->|]; auto).
  split; [auto|]. split; [auto|].
  split. { intros Hn x Hx. split; apply ltb_false_leb; auto. }
  split; [reflexivity|]. split; [reflexivity|].
  intros c [<-|[<-|[<-|[<-|[]]]]]; vm_compute; reflexivity.
Qed.

(** Three ranks measure 3, 1 and 2 seconds and rank 2 collects. *)
Lemma timer_stats_reduction_witness :
  0 <= 2 < Z.of_nat (List.length [3; 1; 2]%float) /\
  exists st,
    timer_stats [3; 1; 2]%float 2 2 None = Some st /\
    min st = 1%float /\ max st = 3%float /\ mean st = 2%float.
Proof.
  split; [simpl; lia|].
  destruct (timer_stats_reduction [3; 1; 2]%float 2 None) as (st & H & _);
    [simpl; lia|].
  exists st. split; [exact H|].
  vm_compute in H. inversion H; subst. repeat split; reflexivity.
Defined.

(** ** Traces *)

Lemma dts_app t1 t2 : dts (t1 ++ t2) = dts t1 ++ dts t2.
Proof. apply flat_map_app. Qed.

Lemma output_steps_app t1 t2 :
  output_steps (t1 ++ t2) = output_steps t1 ++ output_steps t2.
Proof. apply flat_map_app. Qed.

Lemma forks_app t1 t2 : forks (t1 ++ t2) = forks t1 ++ forks t2.
Proof. apply flat_map_app. Qed.

Lemma waits_app t1 t2 : waits (t1 ++ t2) = waits t1 ++ waits t2.
Proof. apply flat_map_app. Qed.

Lemma aborts_app t1 t2 : aborts (t1 ++ t2) = aborts t1 ++ aborts t2.
Proof. apply flat_map_app. Qed.

Lemma steps_between_cons a b :
  a < b -> steps_between a b = (a + 1) :: steps_between (a + 1) b.
Proof.
  intros H. unfold steps_between.
  replace (Z.to_nat (b - a)) with (S (Z.to_nat (b - (a + 1)))) by lia.
  simpl. f_equal. rewrite <- seq_shift, map_map.
  apply map_ext. intros i. lia.
Qed.

Lemma steps_between_nil a : steps_between a a = [].
Proof. unfold steps_between. now rewrite Z.sub_diag. Qed.

Lemma int_rem_opp a b : 0 <= a -> int_rem a (- b) = int_rem a b.
Proof.
  intros Ha. unfold int_rem.
  replace (- b =? 0) with (b =? 0)
    by (destruct (Z.eqb_spec b 0), (Z.eqb_spec (- b) 0); lia).
  replace (a =? INT_MIN) with false
    by (symmetry; apply Z.eqb_neq; unfold INT_MIN; lia).
  simpl. destruct (Z.eqb_spec b 0) as [->|Hb]; [reflexivity|].
  now rewrite Z.rem_opp_r.
Qed.

(** ** The monad, one action at a time *)

Ltac unfold_M :=
  unfold outputParticles, fork_h5fuse, progress_line, control_dt, integrate,
    communicate, advance, reap_one,
    bind, get, modify, emit, lift, raise, ret, int_incr, int_rem in *.

Ltac split_ifs :=
  repeat match goal with
         | H : context [if ?c then _ else _] |- _ => destruct c eqn:?
         end.

Ltac use_tests :=
  repeat match goal with
         | H : negb _ = true |- _ => apply negb_true_iff in H
         | H : negb _ = false |- _ => apply negb_false_iff in H
         end;
  repeat match goal with H : _ = _ |- _ => rewrite H end.

Section Proofs.

Context {PM : Type} (W : World PM).

Lemma bind_inv {A B} (m : M PM A) (k : A -> M PM B) s r s' t :
  bind m k s = (r, s', t) ->
  (exists a s1 t1 t2, m s = (Val a, s1, t1) /\ k a s1 = (r, s', t2) /\ t = t1 ++ t2)
  \/ (exists f, m s = (Fault f, s', t) /\ r = Fault f).
Proof.
  unfold bind. destruct (m s) as [[[a|f] s1] t1].
  - destruct (k a s1) as [[r2 s2] t2] eqn:E. intros H; inversion H; subst.
    left. now exists a, s1, t1, t2.
  - intros H; inversion H; subst. right. now exists f.
Qed.

Lemma outputParticles_spec s r s' t :
  outputParticles W s = (r, s', t) ->
  same_clock s s' /\
  (dts t = [] /\ waits t = [] /\ aborts t = [] /\ output_steps t = [_step s]) /\
  (r = Val tt \/ r = Fault (Undefined SignedOverflow)) /\
  (r = Val tt -> nfork s' = nfork s + Z.of_nat (List.length (forks t))) /\
  shmrank s' = (if local_fuse W then Some (shm_rank W) else shmrank s).
Proof.
  unfold local_fuse, same_clock. unfold_M. intros H.
  split_ifs; simpl in *; inversion H; subst; clear H; simpl;
    repeat split; auto; try lia; try discriminate.
  all: use_tests; reflexivity.
Qed.

Lemma outputParticles_head s r s' t :
  outputParticles W s = (r, s', t) ->
  hd_error t = Some (OutputParticles (_step s) (_time s)).
Proof.
  unfold_M. intros H.
  split_ifs; simpl in *; inversion H; subst; reflexivity.
Qed.

(** Every call writes the time step once when the build has a backend,
    HDF5 before Silo, and writes nothing when it has none. *)
Lemma outputParticles_writes s r s' t :
  outputParticles W s = (r, s', t) ->
  written t = (if Cabana_ENABLE_HDF5 W || Cabana_ENABLE_SILO W
               then [_step s] else []).
Proof.
  unfold_M. intros H.
  split_ifs; simpl in *; inversion H; subst; reflexivity.
Qed.

Lemma periodic_output_spec wf s r s' t :
  periodic_output W wf s = (r, s', t) ->
  same_clock s s' /\
  (dts t = [] /\ waits t = [] /\ aborts t = []) /\
  (r = Val tt -> wf <> 0 /\
     output_steps t = (if Z.rem (_step s) wf =? 0 then [_step s] else [])) /\
  (r = Val tt \/ exists u, r = Fault (Undefined u)) /\
  (r = Val tt -> nfork s' = nfork s + Z.of_nat (List.length (forks t))) /\
  (local_fuse W = false -> shmrank s' = shmrank s).
Proof.
  unfold periodic_output, bind, get, lift, int_rem, ret. intros H.
  destruct (wf =? 0) eqn:E0.
  { inversion H; subst. unfold same_clock. repeat split; auto; try discriminate.
    right; eauto. }
  apply Z.eqb_neq in E0.
  destruct ((_step s =? INT_MIN) && (wf =? -1)).
  { inversion H; subst. unfold same_clock. repeat split; auto; try discriminate.
    right; eauto. }
  destruct (0 =? Z.rem (_step s) wf) eqn:E1.
  - destruct (outputParticles W s) as [[r1 s1] t1] eqn:E.
    simpl in H. inversion H; subst; clear H.
    destruct (outputParticles_spec _ _ _ _ E) as (Hc & (Hd & Hw & Ha & Ho) & Hr & Hn & Hs).
    split; [exact Hc|]. split; [auto|]. split; [|split; [|split]]; auto.
    + intros _. split; [assumption|].
      apply Z.eqb_eq in E1. rewrite <- E1. simpl. assumption.
    + destruct Hr as [->| ->]; [now left | right; eauto].
    + intros Hl. now rewrite Hl in Hs.
  - inversion H; subst; clear H.
    split; [unfold same_clock; tauto|]. split; [auto|].
    split; [|split; [|split]]; auto; try (simpl; intros; lia).
    intros _. split; [assumption|].
    rewrite Z.eqb_sym in E1. now rewrite E1.
Qed.

Lemma loop_body_val tf wf s s' t :
  loop_body W tf wf s = (Val tt, s', t) ->
  _dt s' = timeStepControl W (_pm s) (_dt s) /\
  _time s' = (_time s + _dt s')%float /\
  _step s' = _step s + 1 /\ _step s < INT_MAX /\ wf <> 0 /\
  dts t = [_dt s'] /\
  output_steps t = (if Z.rem (_step s') wf =? 0 then [_step s'] else []) /\
  waits t = [] /\ aborts t = [] /\
  nfork s' = nfork s + Z.of_nat (List.length (forks t)) /\
  _rank s' = _rank s /\
  (local_fuse W = false -> shmrank s' = shmrank s).
Proof.
  unfold loop_body. unfold_M. intros H.
  split_ifs; simpl in H; try discriminate.
  all: match type of H with
       | context [periodic_output ?W' ?w ?s1] =>
           destruct (periodic_output W' w s1) as [[r2 s2] t2] eqn:E
       end; inversion H; subst; clear H;
       destruct (periodic_output_spec _ _ _ _ _ E)
         as ((H1 & H2 & H3 & H4 & H5 & H6 & H7) & (Hd & Hw & Ha) & Ho & _ & Hn & Hs);
       simpl in *;
       destruct (Ho eq_refl) as [Hwf Ho'];
       rewrite ?dts_app, ?output_steps_app, ?waits_app, ?aborts_app, ?forks_app; simpl;
       rewrite ?Hd, ?Hw, ?Ha, ?H1, ?H2, ?H3, ?H5; simpl.
  all: repeat split; auto; try (apply Z.ltb_lt; assumption); try (now apply Hn).
Qed.

Lemma loop_body_any tf wf s r s' t :
  loop_body W tf wf s = (r, s', t) ->
  Forall (fun dt => dt = timeStepControl W (_pm s) (_dt s)) (dts t) /\
  waits t = [] /\ aborts t = [] /\
  (r = Val tt \/ exists u, r = Fault (Undefined u)).
Proof.
  unfold loop_body. unfold_M. intros H.
  split_ifs; simpl in H;
    try match type of H with
        | context [periodic_output ?W' ?w ?s1] =>
            destruct (periodic_output W' w s1) as [[r2 s2] t2] eqn:E;
            destruct (periodic_output_spec _ _ _ _ _ E)
              as (_ & (Hd & Hw & Ha) & _ & Hr & _)
        end;
    inversion H; subst; clear H; simpl;
    rewrite ?dts_app, ?waits_app, ?aborts_app; simpl; rewrite ?Hd, ?Hw, ?Ha; simpl.
  all: repeat split; auto; try (right; eauto; fail).
Qed.

(** ** The time loop *)

Lemma time_loop_run fuel tf wf : forall s r s' t,
  time_loop W fuel tf wf s = (r, s', t) ->
  defined r = true ->
  (r = Val tt /\ (_time s' <? tf)%float = false
   \/ r = Fault OutOfFuel /\ (_time s' <? tf)%float = true) /\
  _step s' = _step s + Z.of_nat (List.length (dts t)) /\
  _time s' = fold_left PrimFloat.add (dts t) (_time s) /\
  (dts t <> [] ->
   (fold_left PrimFloat.add (removelast (dts t)) (_time s) <? tf)%float = true) /\
  waits t = [] /\ aborts t = [] /\
  nfork s' = nfork s + Z.of_nat (List.length (forks t)) /\
  _rank s' = _rank s /\
  (local_fuse W = false -> shmrank s' = shmrank s).
Proof.
  induction fuel as [|fuel IH]; intros s r s' t H Hdef; simpl in H;
    destruct (_time s <? tf)%float eqn:Hlt.
  1,2,4: inversion H; subst; clear H; simpl; repeat split; auto; try lia;
         congruence.
  apply bind_inv in H.
  destruct H as [([] & s1 & t1 & t2 & Hb & Hl & ->) | (f & Hb & ->)].
  - apply loop_body_val in Hb.
    destruct Hb as (Hdt & Htime & Hstep & _ & _ & Hd & _ & Hw & Ha & Hn & Hr & Hs).
    apply IH in Hl; [|assumption].
    destruct Hl as (Hex & Hstep' & Htime' & Hprev & Hw' & Ha' & Hn' & Hr' & Hs').
    rewrite dts_app, waits_app, aborts_app, forks_app, Hd, Hw, Ha, Hw', Ha'.
    simpl.
    repeat split; auto; try lia; try congruence.
    + intros _. destruct (dts t2) as [|d l] eqn:El.
      * simpl. assumption.
      * simpl. rewrite <- Htime. apply Hprev. discriminate.
    + rewrite length_app. lia.
    + intros Hl. rewrite Hs', Hs; auto.
  - apply loop_body_any in Hb.
    destruct Hb as (_ & _ & _ & [Hr|(u & Hr)]); inversion Hr; subst; discriminate.
Qed.

Lemma time_loop_outputs fuel tf wf : forall s r s' t,
  0 < wf -> 0 <= _step s ->
  time_loop W fuel tf wf s = (r, s', t) ->
  defined r = true ->
  output_steps t
  = filter (fun k => k mod wf =? 0) (steps_between (_step s) (_step s')).
Proof.
  induction fuel as [|fuel IH]; intros s r s' t Hwf Hs H Hdef; simpl in H;
    destruct (_time s <? tf)%float eqn:Hlt.
  1,2,4: inversion H; subst; clear H; now rewrite steps_between_nil.
  apply bind_inv in H.
  destruct H as [([] & s1 & t1 & t2 & Hb & Hl & ->) | (f & Hb & ->)].
  - apply loop_body_val in Hb.
    destruct Hb as (_ & _ & Hstep & _ & _ & _ & Ho & _).
    pose proof (time_loop_run _ _ _ _ _ _ _ Hl Hdef) as (_ & Hstep' & _).
    rewrite output_steps_app, Ho, (IH s1 r s' t2 Hwf ltac:(lia) Hl Hdef).
    rewrite (steps_between_cons (_step s)) by lia.
    simpl. rewrite <- Hstep.
    rewrite Z.rem_mod_nonneg by lia.
    destruct (_step s1 mod wf =? 0); reflexivity.
  - apply loop_body_any in Hb.
    destruct Hb as (_ & _ & _ & [Hr|(u & Hr)]); inversion Hr; subst; discriminate.
Qed.

Lemma time_loop_dts fuel tf wf : forall s r s' t,
  time_loop W fuel tf wf s = (r, s', t) ->
  Forall (controller_output W) (dts t).
Proof.
  induction fuel as [|fuel IH]; intros s r s' t H; simpl in H;
    destruct (_time s <? tf)%float eqn:Hlt.
  1,2,4: inversion H; subst; constructor.
  apply bind_inv in H.
  destruct H as [([] & s1 & t1 & t2 & Hb & Hl & ->) | (f & Hb & ->)];
    apply loop_body_any in Hb; destruct Hb as (Hd & _).
  - apply IH in Hl. rewrite dts_app. apply Forall_app; split; auto.
    eapply Forall_impl; [|exact Hd]. intros dt ->. red; eauto.
  - eapply Forall_impl; [|exact Hd]. intros dt ->. red; eauto.
Qed.

(** The bound on the number of iterations is only a bound: a run that did
    not hit it is the same under every larger bound. *)
Lemma time_loop_more_fuel fuel tf wf : forall fuel' s r s' t,
  time_loop W fuel tf wf s = (r, s', t) ->
  r <> Fault OutOfFuel ->
  (fuel <= fuel')%nat ->
  time_loop W fuel' tf wf s = (r, s', t).
Proof.
  induction fuel as [|fuel IH]; intros fuel' s r s' t H Hr Hle.
  - simpl in H. destruct (_time s <? tf)%float eqn:Hlt.
    + inversion H; subst. congruence.
    + destruct fuel'; simpl; rewrite Hlt; assumption.
  - destruct fuel' as [|fuel']; [lia|]. simpl in *.
    destruct (_time s <? tf)%float; [|assumption].
    unfold bind in *.
    destruct (loop_body W tf wf s) as [[[[]|f] s1] t1]; [|assumption].
    destruct (time_loop W fuel tf wf s1) as [[r2 s2] t2] eqn:E2.
    inversion H; subst.
    rewrite (IH fuel' s1 r s' t2 E2 Hr); [reflexivity|lia].
Qed.

Lemma solve_more_fuel fuel fuel' tf wf s r s' t :
  solve W fuel tf wf s = (r, s', t) ->
  r <> Fault OutOfFuel ->
  (fuel <= fuel')%nat ->
  solve W fuel' tf wf s = (r, s', t).
Proof.
  unfold solve, bind. intros H Hr Hle.
  destruct (outputParticles W s) as [[[[]|f] s0] t0]; [|assumption].
  destruct (time_loop W fuel tf wf s0) as [[[[]|f] s1] t1] eqn:E.
  - rewrite (time_loop_more_fuel _ _ _ _ _ _ _ _ E); [assumption|discriminate|assumption].
  - inversion H; subst.
    rewrite (time_loop_more_fuel _ _ _ _ _ _ _ _ E); [reflexivity|congruence|assumption].
Qed.

Lemma reap_one_spec i s r s' t :
  reap_one W i s = (r, s', t) ->
  s' = s /\ quiet t /\ waits t = [waitpid W i] /\
  (if failed (waitpid W i)
   then r = Fault MPI_Aborted /\ aborts t = [-1]
   else r = Val tt /\ aborts t = []).
Proof.
  unfold reap_one, WIFEXITED, WEXITSTATUS, failed, bind, emit, raise, ret.
  intros H. destruct (waitpid W i) as [c|]; [destruct (c =? 0)|];
    simpl in H; inversion H; subst; clear H; unfold quiet; simpl; auto.
Qed.

Lemma reap_from_spec n : forall i s r s' t,
  reap_from W i n s = (r, s', t) ->
  s' = s /\ quiet t /\
  waits t = map (waitpid W) (seq i (List.length (waits t))) /\
  (List.length (waits t) <= n)%nat /\
  existsb failed (removelast (waits t)) = false /\
  ((r = Val tt /\ List.length (waits t) = n /\
    existsb failed (waits t) = false /\ aborts t = [])
   \/ (r = Fault MPI_Aborted /\ existsb failed (waits t) = true /\ aborts t = [-1])).
Proof.
  induction n as [|n IH]; intros i s r s' t H; simpl in H.
  - inversion H; subst. unfold quiet. simpl. repeat split; auto.
  - apply bind_inv in H.
    destruct H as [([] & s1 & t1 & t2 & Hb & Hl & ->) | (f & Hb & ->)];
      apply reap_one_spec in Hb; destruct Hb as (-> & (Q1 & Q2 & Q3) & Hw & Hf).
    + destruct (failed (waitpid W i)) eqn:Ef; destruct Hf as (Hf & Ha); [discriminate|].
      apply IH in Hl.
      destruct Hl as (-> & (Q1' & Q2' & Q3') & Hw' & Hlen & Hpre & Hres).
      unfold quiet.
      rewrite dts_app, output_steps_app, forks_app, waits_app, aborts_app,
        Q1, Q2, Q3, Q1', Q2', Q3', Hw, Ha.
      simpl. rewrite <- Hw', Ef. simpl.
      repeat split; auto; try lia.
      * destruct (waits t2); simpl in *; [reflexivity|]. now rewrite Ef.
      * destruct Hres as [(-> & Hn & He & Ha')|(-> & He & Ha')]; [left|right];
          repeat split; auto.
    + destruct (failed (waitpid W i)) eqn:Ef; destruct Hf as (Hf & Ha); [|discriminate].
      rewrite Hw. unfold quiet. simpl. rewrite Ef.
      repeat split; auto; try lia.
Qed.

Lemma reap_spec s r s' t :
  reap W s = (r, s', t) ->
  s' = s /\ quiet t /\
  waits t = map (waitpid W) (seq 0 (List.length (waits t))) /\
  (Z.of_nat (List.length (waits t)) <= Z.max 0 (nfork s)) /\
  existsb failed (removelast (waits t)) = false /\
  (read_shmrank W s <> 0 -> waits t = []) /\
  ((r = Val tt /\ existsb failed (waits t) = false /\ aborts t = [] /\
    (read_shmrank W s = 0 -> Z.of_nat (List.length (waits t)) = Z.max 0 (nfork s)))
   \/ (r = Fault MPI_Aborted /\ existsb failed (waits t) = true /\ aborts t = [-1])).
Proof.
  unfold reap, bind, get. intros H.
  destruct (read_shmrank W s =? 0) eqn:Eg.
  - destruct (reap_from W 0 (Z.to_nat (nfork s)) s) as [[r1 s1] t1] eqn:E.
    simpl in H. inversion H; subst; clear H.
    apply reap_from_spec in E.
    destruct E as (-> & Q & Hw & Hlen & Hpre & Hres).
    apply Z.eqb_eq in Eg.
    repeat split; try apply Q; auto; try lia. 
    destruct Hres as [(-> & Hn & He & Ha)|(-> & He & Ha)]; [left|right];
      repeat split; auto. intros _. lia.
  - simpl in H. inversion H; subst; clear H. apply Z.eqb_neq in Eg.
    unfold quiet; simpl. repeat split; auto; try lia. left. repeat split; auto.
    intros; contradiction.
Qed.


(** ** [solve] as a whole *)

(** A run without undefined behaviour wrote the initial output and went
    through the time loop; it then either left the loop and went through the
    reap, or ran out of fuel inside the loop. *)
Lemma solve_run fuel tf wf s r s' t :
  solve W fuel tf wf s = (r, s', t) ->
  defined r = true ->
  exists s0 t0 r1 t1 t2,
    outputParticles W s = (Val tt, s0, t0) /\
    time_loop W fuel tf wf s0 = (r1, s', t1) /\
    t = t0 ++ t1 ++ t2 /\
    defined r1 = true /\
    (loop_exited r = true /\ r1 = Val tt /\ reap W s' = (r, s', t2)
     \/ r = Fault OutOfFuel /\ r1 = Fault OutOfFuel /\ t2 = []).
Proof.
  unfold solve. intros H Hdef.
  apply bind_inv in H.
  destruct H as [([] & s0 & t0 & t' & Ho & H & ->) | (f & Ho & ->)].
  - apply bind_inv in H.
    destruct H as [([] & s1 & t1 & t2 & Hl & Hr & ->) | (f & Hl & ->)].
    + pose proof (reap_spec _ _ _ _ Hr) as (-> & _ & _ & _ & _ & _ & Hres).
      exists s0, t0, (Val tt), t1, t2. repeat split; auto.
      left. repeat split; auto.
      destruct Hres as [(-> & _)|(-> & _)]; reflexivity.
    + pose proof (time_loop_run _ _ _ _ _ _ _ Hl Hdef) as ([(E & _)|(E & _)] & _);
        [discriminate|].
      inversion E; subst.
      exists s0, t0, (Fault OutOfFuel), t', []. rewrite app_nil_r.
      repeat split; auto.
  - apply outputParticles_spec in Ho.
    destruct Ho as (_ & _ & [Hr|Hr] & _); inversion Hr; subst; discriminate.
Qed.

Lemma solve_dts fuel tf wf s r s' t :
  solve W fuel tf wf s = (r, s', t) -> Forall (controller_output W) (dts t).
Proof.
  unfold solve. intros H.
  apply bind_inv in H.
  destruct H as [([] & s0 & t0 & t' & Ho & H & ->) | (f & Ho & ->)];
    apply outputParticles_spec in Ho; destruct Ho as (_ & (Hd0 & _) & _);
    rewrite ?dts_app, Hd0; simpl; auto.
  apply bind_inv in H.
  destruct H as [([] & s1 & t1 & t2 & Hl & Hr & ->) | (f & Hl & ->)];
    apply time_loop_dts in Hl; auto.
  apply reap_spec in Hr. destruct Hr as (_ & (Hd2 & _) & _).
  now rewrite dts_app, Hd2, app_nil_r.
Qed.

(** ** A negative [write_freq] *)

Lemma bind_cong {A B} (m m' : M PM A) (k k' : A -> M PM B) s :
  m s = m' s ->
  (forall a s1 t1, m' s = (Val a, s1, t1) -> k a s1 = k' a s1) ->
  bind m k s = bind m' k' s.
Proof.
  intros Hm Hk. unfold bind. rewrite Hm.
  destruct (m' s) as [[[a|f] s1] t1]; [|reflexivity].
  now rewrite (Hk a s1 t1).
Qed.

Lemma periodic_output_opp wf s :
  0 <= _step s -> periodic_output W (- wf) s = periodic_output W wf s.
Proof.
  intros Hs. unfold periodic_output, bind, get, lift. now rewrite int_rem_opp.
Qed.

Lemma progress_line_opp tf wf (s : State PM) :
  0 <= _step s -> progress_line tf (- wf) s = progress_line tf wf s.
Proof.
  intros Hs. unfold progress_line, bind, get, lift. now rewrite int_rem_opp.
Qed.

Lemma progress_line_state tf wf (s : State PM) r s' t :
  progress_line tf wf s = (r, s', t) -> s' = s.
Proof.
  unfold progress_line, bind, get, lift, emit, ret.
  destruct (0 =? _rank s);
    [destruct (int_rem (_step s) wf) as [x|]; [destruct (0 =? x)|]|];
    intros E; inversion E; reflexivity.
Qed.

Lemma loop_body_opp tf wf s :
  0 <= _step s -> loop_body W tf (- wf) s = loop_body W tf wf s.
Proof.
  intros Hs. unfold loop_body.
  apply bind_cong; [now apply progress_line_opp|].
  intros [] s1 t1 E1. apply progress_line_state in E1. subst s1.
  apply bind_cong; [reflexivity|]. intros [] s2 t2 E2.
  apply bind_cong; [reflexivity|]. intros [] s3 t3 E3.
  apply bind_cong; [reflexivity|]. intros [] s4 t4 E4.
  apply bind_cong; [reflexivity|]. intros [] s5 t5 E5.
  apply periodic_output_opp.
  revert E2 E3 E4 E5.
  unfold control_dt, integrate, communicate, advance, bind, get, modify, emit,
    lift, int_incr.
  intros E2; inversion E2; subst; clear E2.
  intros E3; inversion E3; subst; clear E3.
  intros E4; inversion E4; subst; clear E4.
  cbn [_step with_dt with_pm with_time].
  destruct (_step s <? INT_MAX); intros E5; inversion E5; subst.
  cbn [_step with_step]. lia.
Qed.

Lemma time_loop_opp fuel tf wf : forall s,
  0 <= _step s -> time_loop W fuel tf (- wf) s = time_loop W fuel tf wf s.
Proof.
  induction fuel as [|fuel IH]; intros s Hs; simpl; [reflexivity|].
  destruct (_time s <? tf)%float; [|reflexivity].
  unfold bind. rewrite loop_body_opp by assumption.
  destruct (loop_body W tf wf s) as [[[[]|f] s1] t1] eqn:E; [|reflexivity].
  apply loop_body_val in E. rewrite IH by lia. reflexivity.
Qed.

End Proofs.

(* ================================================================== *)
(** * Invariants and relations of a run *)

(** ** Invariants of a run *)

Section Invariants.

Context {PM : Type} (W : World PM).
Variable inv : State PM -> Prop.
Variable Q : list event -> Prop.
Hypothesis Q_nil : Q [].
Hypothesis Q_app : forall t1 t2, Q t1 -> Q t2 -> Q (t1 ++ t2).

Lemma bind_assoc {A B C} (m : M PM A) (k : A -> M PM B) (h : B -> M PM C) s :
  bind (bind m k) h s = bind m (fun a => bind (k a) h) s.
Proof.
  unfold bind. destruct (m s) as [[[a|f] s1] t1]; [|reflexivity].
  destruct (k a s1) as [[[b|f] s2] t2]; [|reflexivity].
  destruct (h b s2) as [[r s3] t3]. now rewrite app_assoc.
Qed.

Lemma keeps_bind {A B} (pre : State PM -> Prop) (m : M PM A) (k : A -> M PM B) :
  keeps pre inv Q m -> (forall a, keeps inv inv Q (k a)) ->
  keeps pre inv Q (bind m k).
Proof.
  intros Hm Hk s r s' t Hs H. apply bind_inv in H.
  destruct H as [(a & s1 & t1 & t2 & Em & Ek & ->) | (f & Em & ->)].
  - destruct (Hm _ _ _ _ Hs Em) as (H1 & Q1).
    destruct (Hk a _ _ _ _ H1 Ek) as (H2 & Q2). auto.
  - exact (Hm _ _ _ _ Hs Em).
Qed.

Lemma keeps_get : keeps inv inv Q (@get PM).
Proof. intros s r s' t Hs H. inversion H; subst. auto. Qed.

Lemma keeps_ret {A} (a : A) : keeps inv inv Q (@ret PM A a).
Proof. intros s r s' t Hs H. inversion H; subst. auto. Qed.

Lemma keeps_lift {A} (x : result A) : keeps inv inv Q (@lift PM A x).
Proof. intros s r s' t Hs H. inversion H; subst. auto. Qed.

Lemma periodic_output_keeps wf :
  keeps inv inv Q (outputParticles W) -> keeps inv inv Q (periodic_output W wf).
Proof.
  intros Ho. unfold periodic_output.
  apply keeps_bind; [apply keeps_get|intros s].
  apply keeps_bind; [apply keeps_lift|intros x].
  destruct (0 =? x); [assumption|apply keeps_ret].
Qed.

Lemma keeps_emit e : Q [e] -> keeps inv inv Q (@emit PM e).
Proof. intros He s r s' t Hs H. inversion H; subst. auto. Qed.

Lemma keeps_raise {A} f : keeps inv inv Q (@raise PM A f).
Proof. intros s r s' t Hs H. inversion H; subst. auto. Qed.

Lemma keeps_ext {A} (pre : State PM -> Prop) (m m' : M PM A) :
  (forall s, m s = m' s) -> keeps pre inv Q m -> keeps pre inv Q m'.
Proof. intros E Hm s r s' t Hs H. rewrite <- E in H. eauto. Qed.

(** Integration and redistribution are taken as one action: a property of
    traces may hold of the two events together and of neither alone. *)
Lemma loop_body_keeps tf wf :
  keeps inv inv Q (progress_line tf wf) ->
  keeps inv inv Q (control_dt W) ->
  keeps inv inv Q (bind (integrate W) (fun _ => communicate W)) ->
  keeps inv inv Q advance ->
  keeps inv inv Q (outputParticles W) ->
  keeps inv inv Q (loop_body W tf wf).
Proof.
  intros H1 H2 H3 H4 H5.
  apply keeps_ext with
    (m := bind (progress_line tf wf) (fun _ =>
          bind (control_dt W) (fun _ =>
          bind (bind (integrate W) (fun _ => communicate W)) (fun _ =>
          bind advance (fun _ => periodic_output W wf))))).
  - intros s. unfold loop_body. apply bind_cong; [reflexivity|intros ? s1 ? ?].
    apply bind_cong; [reflexivity|intros ? s2 ? ?].
    apply bind_assoc.
  - repeat (apply keeps_bind; [assumption|intros _]).
    now apply periodic_output_keeps.
Qed.

Lemma reap_keeps :
  (forall st, Q [Waitpid st]) -> (forall c, Q [Printf_exit_code c]) ->
  Q [Printf_abnormal] -> (forall c, Q [MPI_Abort c]) ->
  keeps inv inv Q (reap W).
Proof.
  intros Qw Qe Qa Qm.
  assert (Hone : forall i, keeps inv inv Q (reap_one W i)).
  { intros i. unfold reap_one.
    apply keeps_bind; [now apply keeps_emit|intros _].
    destruct (WIFEXITED (waitpid W i)); [destruct (negb _)|];
      repeat (apply keeps_bind; [now apply keeps_emit|intros _]);
      first [apply keeps_raise|apply keeps_ret]. }
  assert (Hfrom : forall n i, keeps inv inv Q (reap_from W i n)).
  { induction n as [|n IH]; intros i; simpl; [apply keeps_ret|].
    apply keeps_bind; [apply Hone|intros _; apply IH]. }
  unfold reap. apply keeps_bind; [apply keeps_get|intros s].
  destruct (read_shmrank W s =? 0); [apply Hfrom|apply keeps_ret].
Qed.

Lemma time_loop_keeps fuel tf wf :
  keeps inv inv Q (loop_body W tf wf) ->
  keeps inv inv Q (time_loop W fuel tf wf).
Proof.
  intros Hb. induction fuel as [|fuel IH]; intros s r s' t Hs H; simpl in H;
    destruct (_time s <? tf)%float.
  1,2,4: inversion H; subst; auto.
  revert H. apply (keeps_bind inv (loop_body W tf wf)
                     (fun _ => time_loop W fuel tf wf)); auto.
Qed.

Lemma solve_keeps (pre : State PM -> Prop) fuel tf wf :
  keeps pre inv Q (outputParticles W) ->
  keeps inv inv Q (loop_body W tf wf) ->
  keeps inv inv Q (reap W) ->
  keeps pre inv Q (solve W fuel tf wf).
Proof.
  intros Ho Hb Hr. unfold solve.
  apply keeps_bind; [assumption|intros _].
  apply keeps_bind; [now apply time_loop_keeps|intros _]. assumption.
Qed.

End Invariants.


(** ** Relations between the ends of a run and its trace *)

Section Relations.

Context {PM : Type} (W : World PM).
Variable R : State PM -> list event -> State PM -> Prop.
Hypothesis R_nil : forall s, R s [] s.
Hypothesis R_app : forall s t1 s1 t2 s2,
  R s t1 s1 -> R s1 t2 s2 -> R s (t1 ++ t2) s2.

Lemma relates_bind {A B} (m : M PM A) (k : A -> M PM B) :
  relates R m -> (forall a, relates R (k a)) -> relates R (bind m k).
Proof.
  intros Hm Hk s r s' t H. apply bind_inv in H.
  destruct H as [(a & s1 & t1 & t2 & Em & Ek & ->) | (f & Em & ->)].
  - eapply R_app; [exact (Hm _ _ _ _ Em)|exact (Hk a _ _ _ _ Ek)].
  - exact (Hm _ _ _ _ Em).
Qed.

Lemma relates_ext {A} (m m' : M PM A) :
  (forall s, m s = m' s) -> relates R m -> relates R m'.
Proof. intros E Hm s r s' t H. rewrite <- E in H. eauto. Qed.

Lemma periodic_output_relates wf :
  relates R (outputParticles W) -> relates R (periodic_output W wf).
Proof.
  intros Ho. unfold periodic_output.
  apply relates_bind; [intros s r s' t H; inversion H; subst; apply R_nil|intros s].
  apply relates_bind; [intros s0 r s' t H; inversion H; subst; apply R_nil|intros x].
  destruct (0 =? x); [assumption|].
  intros s0 r s' t H; inversion H; subst; apply R_nil.
Qed.

(** The control of the step size, the integration and the redistribution
    are taken as one action. *)
Lemma loop_body_relates tf wf :
  relates R (progress_line tf wf) ->
  relates R (bind (control_dt W) (fun _ =>
             bind (integrate W) (fun _ => communicate W))) ->
  relates R advance ->
  relates R (outputParticles W) ->
  relates R (loop_body W tf wf).
Proof.
  intros H1 H2 H3 H4.
  apply relates_ext with
    (m := bind (progress_line tf wf) (fun _ =>
          bind (bind (control_dt W) (fun _ =>
                bind (integrate W) (fun _ => communicate W))) (fun _ =>
          bind advance (fun _ => periodic_output W wf)))).
  - intros s. unfold loop_body. apply bind_cong; [reflexivity|intros ? s1 ? ?].
    rewrite bind_assoc.
    apply bind_cong; [reflexivity|intros ? s2 ? ?].
    apply bind_assoc.
  - repeat (apply relates_bind; [assumption|intros _]).
    now apply periodic_output_relates.
Qed.

Lemma time_loop_relates fuel tf wf :
  relates R (loop_body W tf wf) -> relates R (time_loop W fuel tf wf).
Proof.
  intros Hb. induction fuel as [|fuel IH]; intros s r s' t H; simpl in H;
    destruct (_time s <? tf)%float.
  1,2,4: inversion H; subst; apply R_nil.
  revert H. apply (relates_bind (loop_body W tf wf)
                     (fun _ => time_loop W fuel tf wf)); auto.
Qed.

Lemma solve_relates fuel tf wf :
  relates R (outputParticles W) ->
  relates R (loop_body W tf wf) ->
  relates R (reap W) ->
  relates R (solve W fuel tf wf).
Proof.
  intros Ho Hb Hr. unfold solve.
  apply relates_bind; [assumption|intros _].
  apply relates_bind; [now apply time_loop_relates|intros _]. assumption.
Qed.

End Relations.

(** ** Traces and iterates *)

Ltac run_action H :=
  unfold_M; split_ifs; simpl in H; inversion H; subst; clear H; simpl.

Ltac zero_rank :=
  repeat match goal with
         | H : (0 =? _) = true |- _ => apply Z.eqb_eq in H
         | H : (0 =? _) = false |- _ => apply Z.eqb_neq in H
         end.

Lemma progress_lines_app t1 t2 :
  progress_lines (t1 ++ t2) = progress_lines t1 ++ progress_lines t2.
Proof. apply flat_map_app. Qed.

Lemma stepped_app g h t1 t2 :
  stepped g h t1 -> stepped g h t2 -> stepped g h (t1 ++ t2).
Proof.
  intros H1 H2. remember (List.length t1) as n eqn:Hn.
  revert t1 Hn H1. induction n as [n IH] using lt_wf_ind. intros t1 Hn H1.
  destruct t1 as [|e t1]; [exact H2|].
  destruct e; simpl in *;
    try (apply (IH (List.length t1)); [subst; simpl; lia|reflexivity|exact H1]);
    try contradiction.
  destruct t1 as [|e' t1]; [contradiction|].
  destruct e'; try contradiction. simpl.
  destruct H1 as (? & ? & H1). repeat split; auto.
  apply (IH (List.length t1)); [subst; simpl; lia|reflexivity|exact H1].
Qed.

Lemma written_app t1 t2 : written (t1 ++ t2) = written t1 ++ written t2.
Proof. apply flat_map_app. Qed.

Lemma notices_app t1 t2 : notices (t1 ++ t2) = (notices t1 + notices t2)%nat.
Proof. unfold notices. now rewrite flat_map_app, length_app. Qed.

Lemma last_cons {X} (l : list X) : forall a d, last (a :: l) d = last l a.
Proof.
  induction l as [|b l IH]; intros a d; [reflexivity|].
  change (last (a :: b :: l) d) with (last (b :: l) d).
  now rewrite !IH.
Qed.

Lemma last_app_last {X} (l1 l2 : list X) d :
  last (l1 ++ l2) d = last l2 (last l1 d).
Proof.
  revert d. induction l1 as [|a l1 IH]; intros d; [reflexivity|].
  rewrite <- app_comm_cons, !last_cons. apply IH.
Qed.

Lemma orbit_app {X} (f : X -> X) n2 : forall n1 x,
  orbit f (n1 + n2) x = orbit f n1 x ++ orbit f n2 (last (orbit f n1 x) x).
Proof.
  induction n1 as [|n1 IH]; intros x; [reflexivity|].
  cbn [Nat.add orbit]. now rewrite IH, <- app_comm_cons, last_cons.
Qed.

(** ** Facts about whole runs *)

Lemma written_hdf5_app t1 t2 :
  written_hdf5 (t1 ++ t2) = written_hdf5 t1 ++ written_hdf5 t2.
Proof. apply flat_map_app. Qed.

Section RunFacts.
Context {PM : Type} (W : World PM).

(** The run is the iteration of [time_step]. *)
Lemma solve_orbit fuel tf wf s r s' t :
  solve W fuel tf wf s = (r, s', t) ->
  let o := orbit (time_step W (_gravity s) (_halo_min s))
                 (List.length (dts t)) (_pm s, _dt s) in
  dts t = map snd o /\ (_pm s', _dt s') = last o (_pm s, _dt s).
Proof.
  intros H.
  pose (R := fun (x : State PM) (t : list event) (x' : State PM) =>
    _gravity x' = _gravity x /\ _halo_min x' = _halo_min x /\
    dts t = map snd (orbit (time_step W (_gravity x) (_halo_min x))
                           (List.length (dts t)) (_pm x, _dt x)) /\
    (_pm x', _dt x') = last (orbit (time_step W (_gravity x) (_halo_min x))
                                   (List.length (dts t)) (_pm x, _dt x))
                            (_pm x, _dt x)).
  assert (Rn : forall x, R x [] x) by (intros x; unfold R; simpl; auto).
  assert (Ra : forall x t1 x1 t2 x2,
             R x t1 x1 -> R x1 t2 x2 -> R x (t1 ++ t2) x2).
  { intros x t1 x1 t2 x2 (G1 & H1 & D1 & L1) (G2 & H2 & D2 & L2). unfold R.
    rewrite G1, H1 in *.
    rewrite dts_app, length_app, orbit_app, <- L1, map_app, last_app_last, <- L1.
    refine (conj G2 (conj H2 (conj _ L2))). f_equal; assumption. }
  assert (Ho : relates R (outputParticles W)).
  { intros x r' x' t' E. unfold R.
    destruct (outputParticles_spec W _ _ _ _ E)
      as ((E1 & E2 & E3 & E4 & E5 & E6 & E7) & (D & _) & _).
    rewrite D, E1, E4. simpl. auto. }
  assert (Hr : relates R (reap W)).
  { intros x r' x' t' E. unfold R.
    destruct (reap_spec W _ _ _ _ E) as (-> & (D & _) & _).
    rewrite D. simpl. auto. }
  assert (Hb : relates R (loop_body W tf wf)).
  { apply loop_body_relates; auto.
    all: intros x r' x' t' E; run_action E; unfold R; simpl; auto. }
  destruct (solve_relates W R Rn Ra fuel tf wf Ho Hb Hr s r s' t H)
    as (_ & _ & ? & ?). auto.
Qed.

(** A control that keeps [P] keeps it along the iteration. *)
Lemma controller_outputs_kept (P : double -> Prop) g h :
  (forall pm d, P d -> P (timeStepControl W pm d)) ->
  forall n pm d, P d -> Forall P (controller_outputs W g h n pm d).
Proof.
  intros HP. unfold controller_outputs.
  induction n as [|n IH]; intros pm d Hd; cbn [orbit map]; constructor.
  - apply HP, Hd.
  - apply (IH (fst (time_step W g h (pm, d)))
              (snd (time_step W g h (pm, d)))). apply HP, Hd.
Qed.

Lemma controller_outputs_all (P : double -> Prop) g h :
  (forall pm d, P (timeStepControl W pm d)) ->
  forall n pm d, Forall P (controller_outputs W g h n pm d).
Proof.
  intros HP. unfold controller_outputs.
  induction n as [|n IH]; intros pm d; cbn [orbit map]; constructor.
  - apply HP.
  - apply (IH (fst (time_step W g h (pm, d)))
              (snd (time_step W g h (pm, d)))).
Qed.

(** Every call of [outputParticles] writes with the backend the build
    has, HDF5 before Silo. *)
Lemma solve_backend fuel tf wf s r s' t :
  solve W fuel tf wf s = (r, s', t) ->
  written t = (if Cabana_ENABLE_HDF5 W || Cabana_ENABLE_SILO W
               then output_steps t else []) /\
  written_hdf5 t = (if Cabana_ENABLE_HDF5 W then output_steps t else []).
Proof.
  intros H.
  pose (Q := fun t =>
    written t = (if Cabana_ENABLE_HDF5 W || Cabana_ENABLE_SILO W
                 then output_steps t else []) /\
    written_hdf5 t = (if Cabana_ENABLE_HDF5 W then output_steps t else [])).
  assert (Qn : Q []).
  { unfold Q. simpl. destruct (_ || _), (Cabana_ENABLE_HDF5 W); auto. }
  assert (Qa : forall t1 t2, Q t1 -> Q t2 -> Q (t1 ++ t2)).
  { intros t1 t2 [W1 N1] [W2 N2]. unfold Q.
    rewrite written_app, written_hdf5_app, output_steps_app, W1, W2, N1, N2.
    destruct (_ || _), (Cabana_ENABLE_HDF5 W); auto. }
  assert (Qe : forall e, written [e] = [] -> output_steps [e] = [] ->
                         written_hdf5 [e] = [] -> Q [e]).
  { intros e E1 E2 E3. unfold Q. rewrite E1, E2, E3.
    destruct (_ || _), (Cabana_ENABLE_HDF5 W); auto. }
  assert (Ho : keeps (fun _ => True) (fun _ => True) Q (outputParticles W)).
  { intros x r' x' t' _ E. unfold Q. run_action E; auto. }
  assert (Hr : keeps (fun _ => True) (fun _ => True) Q (reap W)).
  { apply reap_keeps; auto. }
  assert (Hb : keeps (fun _ => True) (fun _ => True) Q (loop_body W tf wf)).
  { apply loop_body_keeps; auto.
    all: intros x r' x' t' _ E; run_action E; simpl; auto.
    all: split; auto; try apply Qa; try apply Qe; auto. }
  apply (solve_keeps W (fun _ => True) Q Qn Qa (fun _ => True) fuel tf wf
           Ho Hb Hr s r s' t I H).
Qed.

End RunFacts.


(* ================================================================== *)
(** * The claims about [solve] *)

Section Claims.

Context {PM : Type} (W : World PM).

(** C1 (amended).  In every run of [solve] free of undefined behaviour, the
    step counter has grown by the number of calls of the integrator, and
    [_time] is the initial time to which the time steps handed to the
    integrator were added one after the other, in double precision; the last
    iteration began at a time below [t_final], so the loop overshoots by at
    most that iteration's [dt].  Once the loop is left, [_time < t_final] is
    false, and [t_final <= _time] holds whenever neither of the two is NaN.
    Every single iteration hands one [dt] to the integrator, sets [_time] to
    [_time + dt] and [_step] to [_step + 1]. *)
Theorem solve_clock fuel tf wf s r s' t :
  solve W fuel tf wf s = (r, s', t) ->
  defined r = true ->
  _step s' = _step s + Z.of_nat (List.length (dts t)) /\
  _time s' = fold_left PrimFloat.add (dts t) (_time s) /\
  (dts t <> [] ->
   (fold_left PrimFloat.add (removelast (dts t)) (_time s) <? tf)%float = true) /\
  (loop_exited r = true ->
   (_time s' <? tf)%float = false /\
   (is_nan (_time s') = false -> is_nan tf = false ->
    (tf <=? _time s')%float = true)) /\
  (forall a b u, loop_body W tf wf a = (Val tt, b, u) ->
     dts u = [_dt b] /\ _time b = (_time a + _dt b)%float /\
     _step b = _step a + 1).
Proof.
  intros H Hdef.
  destruct (solve_run W _ _ _ _ _ _ _ H Hdef)
    as (s0 & t0 & r1 & t1 & t2 & Ho & Hl & -> & Hdef1 & Hend).
  apply outputParticles_spec in Ho.
  destruct Ho as ((_ & Htime0 & Hstep0 & _) & (Hd0 & _) & _).
  apply time_loop_run in Hl; [|assumption].
  destruct Hl as (Hexit & Hstep & Htime & Hprev & _).
  assert (Hd2 : dts t2 = []).
  { destruct Hend as [(_ & _ & Hr)|(_ & _ & ->)]; [|reflexivity].
    apply reap_spec in Hr. apply Hr. }
  rewrite !dts_app, Hd0, Hd2, app_nil_r. simpl.
  rewrite <- Hstep0, <- Htime0.
  refine (conj _ (conj _ (conj _ (conj _ _)))); auto.
  - intros Hex. destruct Hend as [(_ & -> & _)|(-> & _)]; [|discriminate].
    destruct Hexit as [(_ & Hexit)|(Hexit & _)]; [|discriminate].
    split; [assumption|]. intros Hn1 Hn2. apply ltb_false_leb; auto.
  - intros a b u Hb. apply loop_body_val in Hb. tauto.
Qed.

(** C2.  In every run of [solve], whatever its outcome, the step sizes
    handed to the integrator are, in order, the values [timeStepControl]
    returned in the iterations of that run, each used as it was returned.  So
    when those values are greater than 0 and at most [max_dt], every [dt]
    handed to the integrator is greater than 0 and at most [max_dt].  This
    is the case for a control that keeps a step size within that range (one
    that never raises a positive step size and never returns a non-positive
    one, the control that returns it unchanged included) when the solver
    starts with a [_dt] in the range, and for a control all of whose values
    lie in the range. *)
Theorem dt_bounded (max_dt : double) fuel tf wf s r s' t :
  solve W fuel tf wf s = (r, s', t) ->
  let outputs :=
    controller_outputs W (_gravity s) (_halo_min s) (List.length (dts t))
                       (_pm s) (_dt s) in
  dts t = outputs /\
  (Forall (in_range max_dt) outputs ->
   forall dt gravity, In (Integrate dt gravity) t -> in_range max_dt dt) /\
  ((forall pm d, in_range max_dt d -> in_range max_dt (timeStepControl W pm d)) ->
   in_range max_dt (_dt s) ->
   forall dt gravity, In (Integrate dt gravity) t -> in_range max_dt dt) /\
  ((forall pm d, in_range max_dt (timeStepControl W pm d)) ->
   forall dt gravity, In (Integrate dt gravity) t -> in_range max_dt dt).
Proof.
  intros H outputs.
  destruct (solve_orbit W _ _ _ _ _ _ _ H) as [Hd _].
  change (dts t = outputs) in Hd.
  assert (Hin : forall dt g, In (Integrate dt g) t -> In dt outputs).
  { intros dt g Hi. rewrite <- Hd. unfold dts. apply in_flat_map.
    exists (Integrate dt g). simpl; auto. }
  assert (Huse : Forall (in_range max_dt) outputs ->
                 forall dt g, In (Integrate dt g) t -> in_range max_dt dt).
  { intros F dt g Hi. rewrite Forall_forall in F. exact (F dt (Hin dt g Hi)). }
  split; [exact Hd|]. split; [exact Huse|]. split.
  - intros Hk H0. apply Huse. now apply controller_outputs_kept.
  - intros Hall. apply Huse. now apply controller_outputs_all.
Qed.

(** C3.  With [write_freq > 0], a run of [solve] free of undefined
    behaviour that starts at a step counter [k0 >= 0] (0 for a new solver)
    calls [outputParticles] first of all, for the initial state, and after
    that exactly at the steps [k] among [k0 + 1], ..., the last step with
    [k mod write_freq = 0], in that order and once each.  In a build with
    HDF5 or Silo each of these calls writes the particles of its step, with
    HDF5 when the build has it, so the steps written are the initial step
    and the later multiples of [write_freq], each once; in a build with
    neither the calls are made and nothing is written. *)
Theorem output_schedule fuel tf wf s r s' t :
  0 < wf -> 0 <= _step s ->
  solve W fuel tf wf s = (r, s', t) ->
  defined r = true ->
  hd_error t = Some (OutputParticles (_step s) (_time s)) /\
  output_steps t
  = _step s :: filter (fun k => k mod wf =? 0) (steps_between (_step s) (_step s')) /\
  written t
  = (if Cabana_ENABLE_HDF5 W || Cabana_ENABLE_SILO W
     then _step s :: filter (fun k => k mod wf =? 0)
                            (steps_between (_step s) (_step s'))
     else []) /\
  written_hdf5 t
  = (if Cabana_ENABLE_HDF5 W
     then _step s :: filter (fun k => k mod wf =? 0)
                            (steps_between (_step s) (_step s'))
     else []).
Proof.
  intros Hwf Hs H Hdef.
  destruct (solve_backend W _ _ _ _ _ _ _ H) as [Hwr Hh5].
  destruct (solve_run W _ _ _ _ _ _ _ H Hdef)
    as (s0 & t0 & r1 & t1 & t2 & Ho & Hl & -> & Hdef1 & Hend).
  pose proof (outputParticles_head W _ _ _ _ Ho) as Hhd.
  apply outputParticles_spec in Ho.
  destruct Ho as ((_ & _ & Hstep0 & _) & (_ & _ & _ & Ho0) & _).
  apply time_loop_outputs in Hl; [|assumption|lia|assumption].
  assert (Ho2 : output_steps t2 = []).
  { destruct Hend as [(_ & _ & Hr)|(_ & _ & ->)]; [|reflexivity].
    apply reap_spec in Hr. apply Hr. }
  assert (Hsched : output_steps (t0 ++ t1 ++ t2)
                   = _step s :: filter (fun k => k mod wf =? 0)
                                       (steps_between (_step s) (_step s'))).
  { rewrite !output_steps_app, Ho0, Hl, Ho2, app_nil_r, Hstep0. reflexivity. }
  split; [destruct t0; [discriminate|exact Hhd]|].
  rewrite Hwr, Hh5, Hsched. auto.
Qed.

(** C4 (amended).  [nfork] is 0 when a solver is built in a new process.
    A run of [solve] free of undefined behaviour adds one to it for every
    fork and never resets it: it still holds the number of forks when [solve]
    returns.  The reap is decided by [shmrank], not by the rank in the job:
    a process whose [shmrank] reads as non-zero checks no status; one whose
    [shmrank] reads as 0 checks the statuses the successive waits deliver and
    stops at the first failure, so it checks at most [nfork] of them, and
    exactly [nfork] when [solve] returns. *)
Theorem fork_counter fuel tf wf s r s' t :
  0 <= nfork s ->
  solve W fuel tf wf s = (r, s', t) ->
  defined r = true ->
  (forall delta_t gravity (pm : PM) rank,
     nfork (Solver_new delta_t gravity pm rank) = 0) /\
  nfork s' = nfork s + Z.of_nat (List.length (forks t)) /\
  (read_shmrank W s' <> 0 -> waits t = []) /\
  waits t = map (waitpid W) (seq 0 (List.length (waits t))) /\
  Z.of_nat (List.length (waits t)) <= nfork s' /\
  existsb failed (removelast (waits t)) = false /\
  (read_shmrank W s' = 0 -> r = Val tt ->
   Z.of_nat (List.length (waits t)) = nfork s').
Proof.
  intros Hn H Hdef.
  destruct (solve_run W _ _ _ _ _ _ _ H Hdef)
    as (s0 & t0 & r1 & t1 & t2 & Ho & Hl & -> & Hdef1 & Hend).
  apply outputParticles_spec in Ho.
  destruct Ho as (_ & (_ & Hw0 & _) & _ & Hn0 & _).
  specialize (Hn0 eq_refl).
  apply time_loop_run in Hl; [|assumption].
  destruct Hl as (_ & _ & _ & _ & Hw1 & _ & Hn1 & _).
  rewrite !waits_app, Hw0, Hw1, !forks_app, !length_app. simpl.
  destruct Hend as [(_ & _ & Hr)|(-> & -> & ->)].
  - apply reap_spec in Hr.
    destruct Hr as (_ & (_ & _ & Hf2) & Hw2 & Hlen & Hpre & Hskip & Hres).
    rewrite Hf2. simpl.
    refine (conj _ (conj _ (conj _ (conj _ (conj _ (conj _ _)))))); auto; try lia.
    intros Hg ->. destruct Hres as [(_ & _ & _ & Hres)|(Hres & _)]; [|discriminate].
    specialize (Hres Hg). lia.
  - simpl. refine (conj _ (conj _ (conj _ (conj _ (conj _ (conj _ _)))))); auto;
      try lia; try (intros; discriminate).
Qed.

(** C5.  In a run of [solve] that gets past the time loop: if one of the
    statuses the reap checked is a non-zero exit code or an abnormal
    termination, the run ends in [MPI_Abort] on MPI_COMM_WORLD with code -1;
    if every status checked is exit code 0, [solve] returns and [MPI_Abort]
    is not called. *)
Theorem reap_verdict fuel tf wf s r s' t :
  solve W fuel tf wf s = (r, s', t) ->
  loop_exited r = true ->
  (existsb failed (waits t) = true -> r = Fault MPI_Aborted /\ aborts t = [-1]) /\
  (existsb failed (waits t) = false -> r = Val tt /\ aborts t = []).
Proof.
  intros H Hex.
  assert (Hdef : defined r = true) by (destruct r as [|[]]; auto; discriminate).
  destruct (solve_run W _ _ _ _ _ _ _ H Hdef)
    as (s0 & t0 & r1 & t1 & t2 & Ho & Hl & -> & Hdef1 & Hend).
  destruct Hend as [(_ & _ & Hr)|(-> & _)]; [|discriminate].
  apply outputParticles_spec in Ho.
  destruct Ho as (_ & (_ & Hw0 & Ha0 & _) & _).
  apply time_loop_run in Hl; [|assumption].
  destruct Hl as (_ & _ & _ & _ & Hw1 & Ha1 & _).
  apply reap_spec in Hr.
  destruct Hr as (_ & _ & _ & _ & _ & _ & Hres).
  rewrite !waits_app, !aborts_app, Hw0, Hw1, Ha0, Ha1. simpl.
  destruct Hres as [(-> & He & Ha & _)|(-> & He & Ha)];
    split; intros Hx; try (rewrite He in Hx; discriminate); auto.
Qed.

(** C10.  When [outputParticles] never takes the local-fusion branch and
    [shmrank] was not assigned before [solve] (as after the constructor), it
    is still unassigned when the reap tests [shmrank == 0]: the test reads
    whatever the member happens to hold.  If that is non-zero the process
    checks no status, whatever its rank and however many processes it forked;
    if it is 0 and [solve] returns, it has waited [nfork] times. *)
Theorem shmrank_unset fuel tf wf s r s' t :
  local_fuse W = false ->
  shmrank s = None ->
  solve W fuel tf wf s = (r, s', t) ->
  defined r = true ->
  shmrank s' = None /\
  read_shmrank W s' = indeterminate W /\
  (indeterminate W <> 0 -> waits t = []) /\
  (indeterminate W = 0 -> r = Val tt ->
   Z.of_nat (List.length (waits t)) = Z.max 0 (nfork s')).
Proof.
  intros Hloc Hs H Hdef.
  destruct (solve_run W _ _ _ _ _ _ _ H Hdef)
    as (s0 & t0 & r1 & t1 & t2 & Ho & Hl & -> & Hdef1 & Hend).
  apply outputParticles_spec in Ho.
  destruct Ho as (_ & (_ & Hw0 & _) & _ & _ & Hs0).
  rewrite Hloc in Hs0.
  apply time_loop_run in Hl; [|assumption].
  destruct Hl as (_ & _ & _ & _ & Hw1 & _ & _ & _ & Hs1).
  specialize (Hs1 Hloc).
  assert (Hnone : shmrank s' = None) by congruence.
  assert (Hread : read_shmrank W s' = indeterminate W)
    by (unfold read_shmrank; now rewrite Hnone).
  rewrite !waits_app, Hw0, Hw1. simpl.
  destruct Hend as [(_ & _ & Hr)|(-> & -> & ->)].
  - apply reap_spec in Hr.
    destruct Hr as (_ & _ & _ & _ & _ & Hskip & Hres).
    rewrite Hread in *.
    refine (conj _ (conj _ (conj _ _))); auto.
    intros Hg ->. destruct Hres as [(_ & _ & _ & Hres)|(Hres & _)]; [|discriminate].
    auto.
  - refine (conj _ (conj _ (conj _ _))); auto. intros; discriminate.
Qed.

(** C7 (amended).  [solve] does not validate [write_freq]: no path of it
    reports a configuration error.  A negative [write_freq] runs the loop and
    takes [_step % write_freq] in every iteration; as the step counter is not
    negative, the run is the one of [- write_freq]. *)
Theorem negative_write_freq fuel tf wf s :
  wf < 0 -> 0 <= _step s ->
  solve W fuel tf wf s = solve W fuel tf (- wf) s.
Proof.
  intros _ Hs. unfold solve, bind.
  destruct (outputParticles W s) as [[[[]|f] s0] t0] eqn:E; [|reflexivity].
  apply outputParticles_spec in E. destruct E as ((_ & _ & Hstep & _) & _).
  rewrite time_loop_opp by lia. reflexivity.
Qed.

End Claims.

(* ================================================================== *)
(** * Launches across the job, statistics, the factory *)

Lemma split_shared_rank_0 nodes l :
  split_shared_rank nodes l = 0 <-> ~ In (nth l nodes 0) (firstn l nodes).
Proof.
  unfold split_shared_rank. rewrite (count_occ_not_In Z.eq_dec). lia.
Qed.

Lemma first_of_node g : forall nodes,
  In g nodes ->
  exists l, (l < List.length nodes)%nat /\ nth l nodes 0 = g /\
            ~ In g (firstn l nodes).
Proof.
  induction nodes as [|x nodes IH]; intros Hin; [contradiction|].
  destruct (Z.eq_dec x g) as [->|Hx].
  - exists 0%nat. simpl. repeat split; auto; lia.
  - destruct Hin as [->|Hin]; [contradiction|].
    destruct (IH Hin) as (l & Hl & Hn & Hf).
    exists (S l). simpl. repeat split; auto; try lia.
    intros [H|H]; auto.
Qed.

Lemma earlier_in_firstn (nodes : list Z) : forall l1 l2,
  (l1 < l2)%nat -> (l1 < List.length nodes)%nat ->
  In (nth l1 nodes 0) (firstn l2 nodes).
Proof.
  induction nodes as [|x nodes IH]; intros l1 l2 H12 Hl; simpl in Hl; [lia|].
  destruct l2 as [|l2]; [lia|]. destruct l1 as [|l1]; simpl; auto.
  right. apply IH; lia.
Qed.

Lemma one_leader_per_node nodes g :
  In g nodes ->
  exists l, (l < List.length nodes)%nat /\ nth l nodes 0 = g /\
            split_shared_rank nodes l = 0 /\
            forall l', (l' < List.length nodes)%nat -> nth l' nodes 0 = g ->
                       split_shared_rank nodes l' = 0 -> l' = l.
Proof.
  intros Hin. destruct (first_of_node g nodes Hin) as (l & Hl & Hn & Hf).
  exists l. repeat split; auto.
  - apply split_shared_rank_0. now rewrite Hn.
  - intros l' Hl' Hn' H0. apply split_shared_rank_0 in H0. rewrite Hn' in H0.
    destruct (Nat.lt_trichotomy l' l) as [Hlt|[->|Hgt]]; auto; exfalso.
    + apply Hf. rewrite <- Hn'. now apply earlier_in_firstn.
    + apply H0. rewrite <- Hn. now apply earlier_in_firstn.
Qed.

(** C6 (amended).  In one call of [outputParticles] with HDF5 output,
    [H5FUSE] set and subfiling on: with local fusion, rank [r] launches one
    [h5fuse -r] when its rank on its node is 0 and nothing otherwise, and
    every node has exactly one such rank; with global fusion, a rank launches
    one [h5fuse -l] when the writer reported subfile names to it and nothing
    otherwise, whatever its rank. *)
Theorem fusion_launches {PM} (W : World PM) (nodes : list Z) :
  Cabana_ENABLE_HDF5 W = true ->
  is_set (getenv W "H5FUSE") = true ->
  subfiling (h5_config_of_env W) = true ->
  (h5fuse_local (h5_config_of_env W) = true ->
   (forall r s,
      launches W nodes r s
      = if split_shared_rank nodes r =? 0
        then [["./h5fuse"; "-r"; "-f"; h5fuse_config W (_step s)]]
        else []) /\
   (forall g, In g nodes ->
      exists l, (l < List.length nodes)%nat /\ nth l nodes 0 = g /\
                split_shared_rank nodes l = 0 /\
                forall l', (l' < List.length nodes)%nat -> nth l' nodes 0 = g ->
                           split_shared_rank nodes l' = 0 -> l' = l)) /\
  (h5fuse_local (h5_config_of_env W) = false ->
   forall r s,
     launches W nodes r s
     = if String.eqb (manifest W s) ""
       then []
       else [["./h5fuse"; "-l"; manifest W s; "-f"; h5fuse_config W (_step s)]]).
Proof.
  intros Hh5 Hfuse Hsub.
  assert (Hrun : forall r s,
    launches W nodes r s
    = if h5fuse_local (h5_config_of_env W)
      then if split_shared_rank nodes r =? 0
           then [["./h5fuse"; "-r"; "-f"; h5fuse_config W (_step s)]] else []
      else if String.eqb (manifest W s) "" then []
           else [["./h5fuse"; "-l"; manifest W s; "-f"; h5fuse_config W (_step s)]]).
  { intros r s. unfold launches, manifest, outputParticles.
    change (h5_config_of_env (at_rank W nodes r)) with (h5_config_of_env W).
    change (h5fuse_config (at_rank W nodes r)) with (h5fuse_config W).
    cbn [Cabana_ENABLE_HDF5 getenv at_rank shm_rank writeTimeStep subfiling
         h5fuse_local subfilenames with_subfilenames].
    rewrite Hh5, Hfuse, Hsub.
    unfold fork_h5fuse, bind, get, emit, modify, lift, ret, int_incr.
    destruct (h5fuse_local (h5_config_of_env W)); cbn [negb];
      [destruct (split_shared_rank nodes r =? 0)
      |destruct (String.eqb _ "")]; cbn [negb fst snd];
      try destruct (nfork _ <? INT_MAX); reflexivity. }
  split; intros Hloc; rewrite Hloc in Hrun; [split|]; auto.
  intros g Hg. now apply one_leader_per_node.
Qed.

Ltac named_backend :=
  cbn [orb];
  match goal with K : Kokkos |- _ => destruct K as [[] [] [] []] end;
  cbn [KOKKOS_ENABLE_SERIAL KOKKOS_ENABLE_OPENMP KOKKOS_ENABLE_CUDA KOKKOS_ENABLE_HIP];
  (split; [intros Hno; exfalso;
           first [apply (Hno HostSpace_Serial); simpl; tauto
                 |apply (Hno HostSpace_OpenMP); simpl; tauto
                 |apply (Hno CudaSpace_Cuda); simpl; tauto
                 |apply (Hno HIPSpace_HIP); simpl; tauto]
         |split; [intros [] Hin Hen; simpl in Hin, Hen;
                  repeat (destruct Hin as [Hin|Hin]; try discriminate Hin);
                  try contradiction; try discriminate Hen; reflexivity
                 |intros sp s E; inversion E; subst; simpl; tauto || discriminate]]).

(** C9.  [createSolver] throws "invalid backend" when [device] is none of
    the twelve spellings, throws "<backend> Backend Not Enabled" when
    [device] names a backend the build does not enable, and when it returns
    a solver it is the new solver of the backend [device] names, which the
    build enables. *)
Theorem createSolver_errors {PM} (K : Kokkos) (device : string)
    (delta_t gravity : double) (pm : PM) (rank : Z) :
  let made := createSolver K device delta_t gravity pm rank in
  ((forall sp, ~ In device (spellings sp)) ->
   made = runtime_error "invalid backend") /\
  (forall sp, In device (spellings sp) -> enabled K sp = false ->
   made = runtime_error (not_enabled sp)) /\
  (forall sp s, made = make_shared sp s ->
   In device (spellings sp) /\ enabled K sp = true /\
   s = Solver_new delta_t gravity pm rank).
Proof.
  unfold createSolver, compare0. cbv zeta.
  destruct (String.eqb_spec device "serial") as [->|N1]; [named_backend|].
  destruct (String.eqb_spec device "Serial") as [->|N2]; [named_backend|].
  destruct (String.eqb_spec device "SERIAL") as [->|N3]; [named_backend|].
  destruct (String.eqb_spec device "openmp") as [->|N4]; [named_backend|].
  destruct (String.eqb_spec device "OpenMP") as [->|N5]; [named_backend|].
  destruct (String.eqb_spec device "OPENMP") as [->|N6]; [named_backend|].
  destruct (String.eqb_spec device "cuda") as [->|N7]; [named_backend|].
  destruct (String.eqb_spec device "Cuda") as [->|N8]; [named_backend|].
  destruct (String.eqb_spec device "CUDA") as [->|N9]; [named_backend|].
  destruct (String.eqb_spec device "hip") as [->|N10]; [named_backend|].
  destruct (String.eqb_spec device "Hip") as [->|N11]; [named_backend|].
  destruct (String.eqb_spec device "HIP") as [->|N12]; [named_backend|].
  cbn [orb]. split; [reflexivity|]. split.
  - intros [] Hin _; simpl in Hin; intuition congruence.
  - intros sp s E; discriminate.
Qed.

(* ================================================================== *)
(** * The claims on concrete runs *)

Ltac computed := vm_compute; reflexivity.

(** [H : solve ... = (outcome R, final R, trace R)] for a named run [R]. *)
Ltac unfolded_run R H :=
  let x := eval cbv delta [R] in R in
  assert (H : x = (outcome R, final R, trace R)) by computed.

(** Four steps of 1/4 reach t = 1. *)
Lemma solve_clock_witness :
  defined (outcome run_quarters) = true /\
  loop_exited (outcome run_quarters) = true /\
  dts (trace run_quarters) = [0.25; 0.25; 0.25; 0.25]%float /\
  _step (final run_quarters) = 4 /\
  _time (final run_quarters) = 1%float /\
  (1 <=? _time (final run_quarters))%float = true.
Proof.
  unfolded_run run_quarters H.
  assert (D : defined (outcome run_quarters) = true) by computed.
  assert (E : loop_exited (outcome run_quarters) = true) by computed.
  destruct (solve_clock _ _ _ _ _ _ _ _ H D) as (Hstep & Htime & _ & Hexit & _).
  destruct (Hexit E) as (_ & Hge).
  split; [exact D|]. split; [exact E|]. split; [computed|].
  split; [rewrite Hstep; computed|].
  split; [rewrite Htime; computed|].
  apply Hge; computed.
Defined.

(** With NaN for [t_final] the loop is left at once, at time 0, and neither
    [0 < NaN] nor [NaN <= 0] holds. *)
Lemma nan_deadline :
  outcome run_nan = Val tt /\
  dts (trace run_nan) = [] /\
  _time (final run_nan) = 0%float /\
  (_time (final run_nan) <? nan)%float = false /\
  (nan <=? _time (final run_nan))%float = false.
Proof. repeat split; computed. Qed.

(** The control of [run_three_tenths] returns the step size unchanged: no
    bound holds of all its values, but the four it returns in the run are
    the 3/10 the solver starts with, and it keeps every step size it is
    given.  The control of [run_quarters] answers within (0, 1/4] always. *)
Lemma dt_bounded_witness :
  dts (trace run_three_tenths)
  = [three_tenths; three_tenths; three_tenths; three_tenths] /\
  Forall (in_range three_tenths) (dts (trace run_three_tenths)) /\
  (forall dt gravity, In (Integrate dt gravity) (trace run_three_tenths) ->
     in_range three_tenths dt) /\
  in_range three_tenths (_dt (Solver_new three_tenths 0%float tt 0)) /\
  In (Integrate three_tenths 0%float) (trace run_three_tenths) /\
  in_range three_tenths three_tenths /\
  In (Integrate 0.25%float 0%float) (trace run_quarters) /\
  in_range 0.25%float 0.25%float.
Proof.
  unfolded_run run_three_tenths H.
  unfolded_run run_quarters H'.
  destruct (dt_bounded _ three_tenths _ _ _ _ _ _ _ H) as (Hd & HA & HB & _).
  destruct (dt_bounded _ 0.25%float _ _ _ _ _ _ _ H') as (_ & _ & _ & HC).
  assert (D : dts (trace run_three_tenths)
              = [three_tenths; three_tenths; three_tenths; three_tenths])
    by computed.
  assert (R0 : in_range three_tenths (_dt (Solver_new three_tenths 0%float tt 0)))
    by (split; computed).
  assert (Hin : In (Integrate three_tenths 0%float) (trace run_three_tenths))
    by (vm_compute; tauto).
  assert (Hin' : In (Integrate 0.25%float 0%float) (trace run_quarters))
    by (vm_compute; tauto).
  assert (F : Forall (in_range three_tenths) (dts (trace run_three_tenths)))
    by (rewrite D; repeat constructor; computed).
  split; [exact D|]. split; [exact F|].
  split; [apply HA; rewrite <- Hd; exact F|].
  split; [exact R0|]. split; [exact Hin|].
  split; [exact (HB (fun pm d Hd => Hd) R0 _ _ Hin)|].
  split; [exact Hin'|].
  apply (HC (fun pm d => clamp_bounds d) _ _ Hin').
Defined.

(** [run_quarters] writes steps 0, 2 and 4 with HDF5; the same run in a
    build without a backend calls [outputParticles] at these steps and
    writes nothing. *)
Lemma output_schedule_witness :
  0 < 2 /\ 0 <= _step (demo_solver 0) /\
  defined (outcome run_quarters) = true /\
  output_steps (trace run_quarters) = [0; 2; 4] /\
  written (trace run_quarters) = [0; 2; 4] /\
  written_hdf5 (trace run_quarters) = [0; 2; 4] /\
  defined (outcome run_no_backend) = true /\
  output_steps (trace run_no_backend) = [0; 2; 4] /\
  written (trace run_no_backend) = [].
Proof.
  unfolded_run run_quarters H.
  unfolded_run run_no_backend H'.
  assert (D : defined (outcome run_quarters) = true) by computed.
  assert (D' : defined (outcome run_no_backend) = true) by computed.
  assert (H0 : 0 <= _step (demo_solver 0)) by (vm_compute; discriminate).
  assert (H2 : 0 < 2) by lia.
  destruct (output_schedule _ _ _ _ _ _ _ _ H2 H0 H D) as (_ & Hout & Hwr & Hh5).
  destruct (output_schedule _ _ _ _ _ _ _ _ H2 H0 H' D') as (_ & Hout' & Hwr' & _).
  split; [exact H2|]. split; [exact H0|]. split; [exact D|].
  split; [rewrite Hout; computed|].
  split; [rewrite Hwr; computed|].
  split; [rewrite Hh5; computed|].
  split; [exact D'|].
  split; [rewrite Hout'; computed|exact Hwr'].
Defined.

(** A node leader that is not rank 0 of the job forks three times, reaps
    three times and leaves the counter at 3. *)
Lemma fork_counter_witness :
  0 <= nfork (demo_solver 4) /\
  defined (outcome run_leader4) = true /\
  List.length (forks (trace run_leader4)) = 3%nat /\
  nfork (final run_leader4) = 3 /\
  waits (trace run_leader4) = [Exited 0; Exited 0; Exited 0].
Proof.
  unfolded_run run_leader4 H.
  assert (D : defined (outcome run_leader4) = true) by computed.
  assert (H0 : 0 <= nfork (demo_solver 4)) by (vm_compute; discriminate).
  destruct (fork_counter _ _ _ _ _ _ _ _ H0 H D) as (_ & Hn & _ & Hw & _).
  split; [exact H0|]. split; [exact D|]. split; [computed|].
  split; [rewrite Hn; computed|].
  rewrite Hw. computed.
Defined.

(** The reap is done by rank 4 of the job, and [nfork] is still 3 when
    [solve] returns; rank 0 of the job, in global fusion with an unassigned
    [shmrank] that reads as 7, has forked three times and checks no status. *)
Lemma reap_not_by_rank_0 :
  (outcome run_leader4 = Val tt /\
   _rank (final run_leader4) = 4 /\
   waits (trace run_leader4) = [Exited 0; Exited 0; Exited 0] /\
   nfork (final run_leader4) = 3) /\
  (outcome run_global = Val tt /\
   _rank (final run_global) = 0 /\
   nfork (final run_global) = 3 /\
   waits (trace run_global) = []).
Proof. repeat split; computed. Qed.

Lemma reap_verdict_witness :
  loop_exited (outcome run_failure) = true /\
  waits (trace run_failure) = [Exited 0; Exited 3] /\
  outcome run_failure = Fault MPI_Aborted /\
  aborts (trace run_failure) = [-1].
Proof.
  unfolded_run run_failure H.
  assert (E : loop_exited (outcome run_failure) = true) by computed.
  destruct (reap_verdict _ _ _ _ _ _ _ _ H E) as (Hbad & _).
  split; [exact E|]. split; [computed|].
  apply Hbad. computed.
Defined.

(** Global fusion: [shmrank] is never assigned, reads as 7, and the three
    fusers this process forked are not waited for. *)
Lemma shmrank_unset_witness :
  local_fuse (demo_world global_fusion "particles.h5.subfile_1_of_1" 0 all_exit_0 7)
  = false /\
  shmrank (demo_solver 0) = None /\
  defined (outcome run_global) = true /\
  shmrank (final run_global) = None /\
  nfork (final run_global) = 3 /\
  waits (trace run_global) = [].
Proof.
  unfolded_run run_global H.
  assert (D : defined (outcome run_global) = true) by computed.
  assert (Hl : local_fuse (demo_world global_fusion "particles.h5.subfile_1_of_1"
                                      0 all_exit_0 7) = false) by computed.
  assert (Hs : shmrank (demo_solver 0) = None) by reflexivity.
  destruct (shmrank_unset _ _ _ _ _ _ _ _ Hl Hs H D) as (Hnone & _ & Hskip & _).
  split; [exact Hl|]. split; [exact Hs|]. split; [exact D|].
  split; [exact Hnone|]. split; [computed|].
  apply Hskip. vm_compute. discriminate.
Defined.

(** Local fusion on [two_nodes]: rank 4 launches, rank 5 does not. *)
Lemma fusion_launches_witness :
  Cabana_ENABLE_HDF5 (demo_world local_fusion "" 0 all_exit_0 0) = true /\
  is_set (getenv (demo_world local_fusion "" 0 all_exit_0 0) "H5FUSE") = true /\
  subfiling (h5_config_of_env (demo_world local_fusion "" 0 all_exit_0 0)) = true /\
  h5fuse_local (h5_config_of_env (demo_world local_fusion "" 0 all_exit_0 0)) = true /\
  launches (demo_world local_fusion "" 0 all_exit_0 0) two_nodes 4 (demo_solver 4)
  = [["./h5fuse"; "-r"; "-f"; "./particles_0.h5"]] /\
  launches (demo_world local_fusion "" 0 all_exit_0 0) two_nodes 5 (demo_solver 5)
  = [].
Proof.
  assert (H1 : Cabana_ENABLE_HDF5 (demo_world local_fusion "" 0 all_exit_0 0) = true)
    by reflexivity.
  assert (H2 : is_set (getenv (demo_world local_fusion "" 0 all_exit_0 0) "H5FUSE")
               = true) by computed.
  assert (H3 : subfiling (h5_config_of_env (demo_world local_fusion "" 0 all_exit_0 0))
               = true) by computed.
  assert (H4 : h5fuse_local (h5_config_of_env (demo_world local_fusion "" 0 all_exit_0 0))
               = true) by computed.
  destruct (fusion_launches _ two_nodes H1 H2 H3) as (Hloc & _).
  destruct (Hloc H4) as (Hl & _).
  repeat (split; [assumption|]).
  split; rewrite Hl; computed.
Defined.

(** Global fusion on two nodes of one rank each: when the writer reports
    subfile names to both ranks, both launch a fuser; when it reports none,
    nobody does. *)
Lemma global_fusion_launches :
  (launches (demo_world global_fusion "particles.h5.subfile_1_of_1" 0 all_exit_0 7)
            [0; 1] 0 (demo_solver 0)
   = [["./h5fuse"; "-l"; "particles.h5.subfile_1_of_1"; "-f"; "./particles_0.h5"]] /\
   launches (demo_world global_fusion "particles.h5.subfile_1_of_1" 0 all_exit_0 7)
            [0; 1] 1 (demo_solver 1)
   = [["./h5fuse"; "-l"; "particles.h5.subfile_1_of_1"; "-f"; "./particles_0.h5"]]) /\
  (launches (demo_world global_fusion "" 0 all_exit_0 7) [0; 1] 0 (demo_solver 0) = [] /\
   launches (demo_world global_fusion "" 0 all_exit_0 7) [0; 1] 1 (demo_solver 1) = []).
Proof. repeat split; computed. Qed.

Lemma negative_write_freq_witness :
  -2 < 0 /\ 0 <= _step (demo_solver 1) /\
  solve (demo_world [] "" 0 all_exit_0 0) 10 1%float (-2) (demo_solver 1)
  = solve (demo_world [] "" 0 all_exit_0 0) 10 1%float (- (-2)) (demo_solver 1) /\
  output_steps (trace (solve (demo_world [] "" 0 all_exit_0 0) 10 1%float (-2)
                             (demo_solver 1))) = [0; 2; 4].
Proof.
  assert (H1 : -2 < 0) by lia.
  assert (H2 : 0 <= _step (demo_solver 1)) by (vm_compute; discriminate).
  split; [exact H1|]. split; [exact H2|].
  split; [exact (negative_write_freq _ _ _ _ _ H1 H2) | computed].
Defined.

(** [write_freq] 0 is not rejected: the initial output is written, the loop
    is entered, the first step is integrated, and [_step % write_freq]
    divides by zero. *)
Lemma zero_write_freq :
  outcome run_zero_freq = Fault (Undefined DivisionByZero) /\
  output_steps (trace run_zero_freq) = [0] /\
  dts (trace run_zero_freq) = [0.25%float] /\
  _step (final run_zero_freq) = 1.
Proof. repeat split; computed. Qed.

(** ** More examples *)

(** Steps of 3/10 up to t = 1: four steps, the last one ending at 12/10,
    and output at the steps 0, 2 and 4. *)
Example three_tenths_run :
  outcome run_three_tenths = Val tt /\
  _step (final run_three_tenths) = 4 /\
  _time (final run_three_tenths)
  = (three_tenths + three_tenths + three_tenths + three_tenths)%float /\
  (1 <=? _time (final run_three_tenths))%float = true /\
  output_steps (trace run_three_tenths) = [0; 2; 4].
Proof. repeat split; computed. Qed.

(** Eight ranks on two nodes of four: ranks 0 and 4 are the node leaders. *)
Example leaders_of_two_nodes :
  map (split_shared_rank two_nodes) (seq 0 8) = [0; 1; 2; 3; 0; 1; 2; 3].
Proof. reflexivity. Qed.

Example createSolver_disabled :
  createSolver (mk_kokkos true false false false) "OpenMP" 0.25%float 0%float tt 0
  = runtime_error "OpenMP Backend Not Enabled".
Proof. reflexivity. Qed.

Example createSolver_unknown :
  createSolver (mk_kokkos true true true true) "gpu" 0.25%float 0%float tt 0
  = runtime_error "invalid backend".
Proof. reflexivity. Qed.

Example createSolver_serial :
  createSolver (mk_kokkos true false false false) "Serial" 0.25%float 0%float tt 0
  = make_shared HostSpace_Serial (demo_solver 0).
Proof. reflexivity. Qed.

(* ================================================================== *)
(** * More of the solver *)

(** ** Launches of [h5fuse] *)

Section Launches.
Context {PM : Type} (W : World PM).

Lemma outputParticles_no_fork s r s' t :
  fusion_on W = false -> outputParticles W s = (r, s', t) ->
  forks t = [] /\ nfork s' = nfork s /\ shmrank s' = shmrank s.
Proof.
  unfold fusion_on. intros Hf H. run_action H; auto.
  all: simpl in *; use_tests; simpl in Hf; congruence.
Qed.

(** X1.  When the build has no HDF5 output, or [H5FUSE] is unset, or
    subfiling is off, a run of [solve] launches no background process and
    leaves [nfork] and [shmrank] as they were, whatever its outcome; when
    [nfork] was not positive it also waits for no process and does not call
    [MPI_Abort]. *)
Theorem no_fusion fuel tf wf s r s' t :
  fusion_on W = false ->
  solve W fuel tf wf s = (r, s', t) ->
  forks t = [] /\ nfork s' = nfork s /\ shmrank s' = shmrank s /\
  (nfork s <= 0 -> waits t = [] /\ aborts t = []).
Proof.
  intros Hf H.
  pose (inv := fun x : State PM => nfork x = nfork s /\ shmrank x = shmrank s).
  pose (Q := fun t => forks t = [] /\
                      (nfork s <= 0 -> waits t = [] /\ aborts t = [])).
  assert (Qn : Q []) by (split; auto).
  assert (Qa : forall t1 t2, Q t1 -> Q t2 -> Q (t1 ++ t2)).
  { intros t1 t2 [F1 W1] [F2 W2]. unfold Q. rewrite forks_app, F1, F2.
    split; auto. intros Hn. rewrite waits_app, aborts_app.
    destruct (W1 Hn) as [-> ->], (W2 Hn) as [-> ->]. auto. }
  assert (Ho : keeps inv inv Q (outputParticles W)).
  { intros x r' x' t' [Hn Hs] E.
    destruct (outputParticles_no_fork _ _ _ _ Hf E) as (F & N & S).
    destruct (outputParticles_spec W _ _ _ _ E) as (_ & (_ & Hw & Ha & _) & _).
    unfold inv, Q. repeat split; congruence. }
  assert (Hr : keeps inv inv Q (reap W)).
  { intros x r' x' t' [Hn Hs] E.
    destruct (reap_spec W _ _ _ _ E)
      as (-> & (_ & _ & F) & _ & Hlen & _ & _ & Hres).
    split; [split; auto|]. split; auto. intros Hle. rewrite Hn in Hlen.
    assert (Hw : waits t' = [])
      by (destruct (waits t'); [auto|simpl in Hlen; lia]).
    split; auto. destruct Hres as [(_ & _ & Ha & _)|(_ & He & _)]; auto.
    rewrite Hw in He. discriminate. }
  assert (Hb : keeps inv inv Q (loop_body W tf wf)).
  { apply loop_body_keeps; auto.
    all: intros x r' x' t' [Hn Hs] E; run_action E; unfold inv, Q; auto. }
  destruct (solve_keeps W inv Q Qn Qa inv fuel tf wf Ho Hb Hr s r s' t
              (conj eq_refl eq_refl) H) as ([? ?] & ? & ?); auto.
Qed.

Lemma outputParticles_local s r s' t :
  local_fuse W = true -> outputParticles W s = (r, s', t) ->
  forks t = (if shm_rank W =? 0
             then map (local_h5fuse W) (output_steps t) else []) /\
  shmrank s' = Some (shm_rank W).
Proof.
  unfold local_fuse, local_h5fuse. intros Hf H.
  repeat (apply andb_true_iff in Hf; destruct Hf as [Hf ?]).
  run_action H; simpl in *;
    repeat match goal with
           | E : negb _ = true |- _ => apply negb_true_iff in E
           | E : negb _ = false |- _ => apply negb_false_iff in E
           end;
    try congruence; repeat match goal with E : _ = _ |- _ => rewrite E end;
    split; reflexivity.
Qed.

Lemma solve_local_forks fuel tf wf s r s' t :
  local_fuse W = true ->
  solve W fuel tf wf s = (r, s', t) ->
  forks t = (if shm_rank W =? 0
             then map (local_h5fuse W) (output_steps t) else []) /\
  shmrank s' = Some (shm_rank W).
Proof.
  intros Hf H.
  pose (inv := fun x : State PM => shmrank x = Some (shm_rank W)).
  pose (Q := fun t => forks t = (if shm_rank W =? 0
                        then map (local_h5fuse W) (output_steps t) else [])).
  assert (Qn : Q []) by (unfold Q; simpl; now destruct (shm_rank W =? 0)).
  assert (Qa : forall t1 t2, Q t1 -> Q t2 -> Q (t1 ++ t2)).
  { intros t1 t2 F1 F2. unfold Q in *.
    rewrite forks_app, output_steps_app, F1, F2, map_app.
    now destruct (shm_rank W =? 0). }
  assert (Ho : forall pre : State PM -> Prop, keeps pre inv Q (outputParticles W)).
  { intros pre x r' x' t' _ E.
    destruct (outputParticles_local _ _ _ _ Hf E). split; assumption. }
  assert (Hr : keeps inv inv Q (reap W)).
  { intros x r' x' t' Hs E.
    destruct (reap_spec W _ _ _ _ E) as (-> & (_ & O & F) & _).
    split; auto. unfold Q. rewrite F, O. simpl. now destruct (shm_rank W =? 0). }
  assert (Hb : keeps inv inv Q (loop_body W tf wf)).
  { apply loop_body_keeps; auto.
    all: intros x r' x' t' Hs E; run_action E; unfold inv, Q; simpl; auto.
    all: now destruct (shm_rank W =? 0). }
  destruct (solve_keeps W inv Q Qn Qa (fun _ => True) fuel tf wf (Ho _) Hb Hr
              s r s' t I H); auto.
Qed.

End Launches.

(** ** Whole runs *)

Section Runs.
Context {PM : Type} (W : World PM).

(** X2.  With local fusion, the background processes a run launches are,
    in order, one [./h5fuse -r -f <configuration file of step k>] for each
    call of [outputParticles], [k] being the step that call writes, when the
    process has rank 0 on its node, and none at all when it has another
    rank. *)
Theorem local_fusers fuel tf wf s r s' t :
  local_fuse W = true ->
  solve W fuel tf wf s = (r, s', t) ->
  forks t = (if shm_rank W =? 0
             then map (local_h5fuse W) (output_steps t) else []).
Proof. intros Hf H. exact (proj1 (solve_local_forks W _ _ _ _ _ _ _ Hf H)). Qed.

(** X3.  With local fusion, when [solve] returns on a process of rank 0 on
    its node that started with [nfork >= 0]: [nfork] has grown by the number
    of outputs, the process has waited for [nfork] background processes, and
    each of them exited with status 0. *)
Theorem leader_reaps_every_fuser fuel tf wf s s' t :
  local_fuse W = true -> shm_rank W = 0 -> 0 <= nfork s ->
  solve W fuel tf wf s = (Val tt, s', t) ->
  nfork s' = nfork s + Z.of_nat (List.length (output_steps t)) /\
  Z.of_nat (List.length (waits t)) = nfork s' /\
  existsb failed (waits t) = false.
Proof.
  intros Hf H0 Hn H.
  destruct (solve_local_forks W _ _ _ _ _ _ _ Hf H) as [HF Hs].
  rewrite H0 in HF, Hs. simpl in HF.
  assert (HL : List.length (forks t) = List.length (output_steps t))
    by (rewrite HF; apply length_map).
  destruct (solve_run W _ _ _ _ _ _ _ H eq_refl)
    as (s0 & t0 & r1 & t1 & t2 & Ho & Hl & -> & _ & [(_ & -> & Hr)|(E & _)]);
    [|discriminate].
  destruct (outputParticles_spec W _ _ _ _ Ho) as (_ & (_ & W0 & _) & _ & N0 & _).
  destruct (time_loop_run W _ _ _ _ _ _ _ Hl eq_refl)
    as (_ & _ & _ & _ & W1 & _ & N1 & _).
  destruct (reap_spec W _ _ _ _ Hr)
    as (_ & (_ & _ & F2) & _ & _ & _ & _ & [(_ & HE & _ & Hall)|(E & _)]);
    [|discriminate].
  specialize (N0 eq_refl).
  rewrite !forks_app, F2, app_nil_r, length_app in HL.
  rewrite !waits_app, W0, W1. simpl.
  assert (Hs' : nfork s' = nfork s + Z.of_nat (List.length (output_steps (t0 ++ t1 ++ t2))))
    by lia.
  refine (conj Hs' (conj _ HE)).
  rewrite Hall; [lia|]. unfold read_shmrank. now rewrite Hs.
Qed.

Lemma solve_stepped fuel tf wf s r s' t :
  solve W fuel tf wf s = (r, s', t) ->
  stepped (_gravity s) (_halo_min s) t /\
  _gravity s' = _gravity s /\ _halo_min s' = _halo_min s /\
  _rank s' = _rank s.
Proof.
  intros H.
  pose (inv := fun x : State PM =>
                 _gravity x = _gravity s /\ _halo_min x = _halo_min s /\
                 _rank x = _rank s).
  pose (Q := stepped (_gravity s) (_halo_min s)).
  assert (Ho : keeps inv inv Q (outputParticles W)).
  { intros x r' x' t' Hx E. run_action E; unfold inv, Q; simpl; auto. }
  assert (Hr : keeps inv inv Q (reap W)).
  { apply reap_keeps; try apply stepped_app; unfold Q; simpl; auto. }
  assert (Hb : keeps inv inv Q (loop_body W tf wf)).
  { apply loop_body_keeps; try apply stepped_app; unfold Q; simpl; auto.
    all: intros x r' x' t' (Hg & Hh & Hk) E; run_action E; unfold inv;
      simpl; auto. }
  destruct (solve_keeps W inv Q I (stepped_app _ _) inv fuel tf wf Ho Hb Hr
              s r s' t (conj eq_refl (conj eq_refl eq_refl)) H)
    as ((? & ? & ?) & ?); auto.
Qed.

(** X4.  In every run of [solve], each call of [TimeIntegrator::step] is
    followed at once by [communicateParticles], and [communicateParticles] is
    not called otherwise; every integration is given the gravity the solver
    had at the call of [solve] and every redistribution its [_halo_min];
    [solve] changes neither of them, nor [_rank]. *)
Theorem redistribution_follows_integration fuel tf wf s r s' t :
  solve W fuel tf wf s = (r, s', t) ->
  stepped (_gravity s) (_halo_min s) t /\
  _gravity s' = _gravity s /\ _halo_min s' = _halo_min s /\
  _rank s' = _rank s.
Proof. apply solve_stepped. Qed.

(** X5.  On a rank other than 0, [solve] prints no progress line. *)
Theorem progress_on_rank_0_only fuel tf wf s r s' t :
  _rank s <> 0 ->
  solve W fuel tf wf s = (r, s', t) ->
  progress_lines t = [].
Proof.
  intros Hk H.
  pose (inv := fun x : State PM => _rank x = _rank s).
  pose (Q := fun t => progress_lines t = []).
  assert (Qa : forall t1 t2, Q t1 -> Q t2 -> Q (t1 ++ t2)).
  { intros t1 t2 Q1 Q2. unfold Q in *. now rewrite progress_lines_app, Q1, Q2. }
  assert (Ho : keeps inv inv Q (outputParticles W)).
  { intros x r' x' t' Hx E. run_action E; unfold inv, Q; simpl; auto. }
  assert (Hr : keeps inv inv Q (reap W)).
  { apply reap_keeps; unfold Q; simpl; auto. }
  assert (Hb : keeps inv inv Q (loop_body W tf wf)).
  { apply loop_body_keeps; unfold Q; simpl; auto.
    all: intros x r' x' t' Hx E; run_action E; unfold inv; simpl; auto.
    all: zero_rank; unfold inv in Hx; congruence. }
  destruct (solve_keeps W inv Q eq_refl Qa inv fuel tf wf Ho Hb Hr
              s r s' t eq_refl H); auto.
Qed.

End Runs.

(** ** Progress lines and written steps *)

Section Statistics.
Context {PM : Type} (W : World PM).

Lemma outputParticles_io_stats s r s' t :
  outputParticles W s = (r, s', t) ->
  progress_lines t = [] /\ _rank s' = _rank s /\
  io_stats s' = (if Cabana_ENABLE_HDF5 W
                 then timer_stats (write_seconds W (_step s)) (world_rank W) 0
                                  (io_stats s)
                 else io_stats s).
Proof.
  unfold_M. intros H.
  split_ifs; cbn [fst snd app] in H; inversion H; subst; clear H; auto.
Qed.

Lemma timer_stats_collects samples c stats :
  timer_stats samples c c stats <> None.
Proof. unfold timer_stats. rewrite Z.eqb_refl. discriminate. Qed.

(** X6.  In an HDF5 build where [_rank] is the rank of the process in
    MPI_COMM_WORLD, every progress line of a run prints statistics that
    [timer_stats] has stored: lines are printed on rank 0 only, rank 0 is the
    collector, and the initial output comes before the first line. *)
Theorem progress_reports_write_times fuel tf wf s r s' t :
  Cabana_ENABLE_HDF5 W = true -> world_rank W = _rank s ->
  solve W fuel tf wf s = (r, s', t) ->
  Forall (fun o => o <> None) (progress_lines t).
Proof.
  intros Hh Hw H.
  pose (inv := fun x : State PM =>
                 _rank x = _rank s /\ (_rank s = 0 -> io_stats x <> None)).
  pose (pre := fun x : State PM => _rank x = _rank s).
  pose (Q := fun t => Forall (fun o : option timer_statsinfo => o <> None)
                             (progress_lines t)).
  assert (Qa : forall t1 t2, Q t1 -> Q t2 -> Q (t1 ++ t2)).
  { intros t1 t2 Q1 Q2. unfold Q in *. rewrite progress_lines_app.
    apply Forall_app. auto. }
  assert (Ho : forall p : State PM -> Prop,
             (forall x, p x -> _rank x = _rank s) ->
             keeps p inv Q (outputParticles W)).
  { intros p Hp x r' x' t' Hx E.
    destruct (outputParticles_io_stats _ _ _ _ E) as (P & K & S).
    unfold inv, Q. rewrite P, K, S, Hh, Hw. repeat split; auto.
    intros ->. apply timer_stats_collects. }
  assert (Hr : keeps inv inv Q (reap W)).
  { apply reap_keeps; unfold Q; simpl; auto. }
  assert (Hb : keeps inv inv Q (loop_body W tf wf)).
  { apply loop_body_keeps; unfold Q; simpl; auto.
    2-4: intros x r' x' t' Hx E; run_action E; unfold inv; simpl; auto.
    2: apply Ho; unfold inv; tauto.
    intros x r' x' t' [Hk Hs] E. run_action E; unfold inv; simpl; auto.
    all: zero_rank; repeat split; auto.
    all: constructor; auto; apply Hs; congruence. }
  apply (solve_keeps W inv Q (Forall_nil _) Qa pre fuel tf wf (Ho _ (fun _ e => e))
           Hb Hr s r s' t eq_refl H).
Qed.

(** X7.  In a build without HDF5, [solve] does not assign [io_stats]: the
    member ends as it began, and every progress line prints the value it had
    at the call of [solve], which for a new solver is the unset member. *)
Theorem progress_without_hdf5 fuel tf wf s r s' t :
  Cabana_ENABLE_HDF5 W = false ->
  solve W fuel tf wf s = (r, s', t) ->
  io_stats s' = io_stats s /\
  Forall (fun o => o = io_stats s) (progress_lines t).
Proof.
  intros Hh H.
  pose (inv := fun x : State PM => io_stats x = io_stats s).
  pose (Q := fun t => Forall (fun o => o = io_stats s) (progress_lines t)).
  assert (Qa : forall t1 t2, Q t1 -> Q t2 -> Q (t1 ++ t2)).
  { intros t1 t2 Q1 Q2. unfold Q in *. rewrite progress_lines_app.
    apply Forall_app. auto. }
  assert (Ho : keeps inv inv Q (outputParticles W)).
  { intros x r' x' t' Hx E.
    destruct (outputParticles_io_stats _ _ _ _ E) as (P & K & S).
    unfold inv, Q. rewrite P, S, Hh. auto. }
  assert (Hr : keeps inv inv Q (reap W)).
  { apply reap_keeps; unfold Q; simpl; auto. }
  assert (Hb : keeps inv inv Q (loop_body W tf wf)).
  { apply loop_body_keeps; unfold Q; simpl; auto.
    all: intros x r' x' t' Hx E; run_action E; unfold inv; simpl; auto. }
  apply (solve_keeps W inv Q (Forall_nil _) Qa inv fuel tf wf Ho Hb Hr
           s r s' t eq_refl H).
Qed.

(** X8.  Every call of [outputParticles] in a run writes its time step
    once when the build has HDF5 or Silo, so that the steps written are the
    steps output, in order, and writes nothing when the build has neither.
    The notice that no output is enabled is printed once per output on rank
    0 of a build with neither, and not printed otherwise. *)
Theorem every_output_written fuel tf wf s r s' t :
  solve W fuel tf wf s = (r, s', t) ->
  written t = (if Cabana_ENABLE_HDF5 W || Cabana_ENABLE_SILO W
               then output_steps t else []) /\
  notices t = (if Cabana_ENABLE_HDF5 W || Cabana_ENABLE_SILO W then 0%nat
               else if _rank s =? 0 then List.length (output_steps t)
               else 0%nat).
Proof.
  intros H.
  pose (inv := fun x : State PM => _rank x = _rank s).
  pose (Q := fun t =>
    written t = (if Cabana_ENABLE_HDF5 W || Cabana_ENABLE_SILO W
                 then output_steps t else []) /\
    notices t = (if Cabana_ENABLE_HDF5 W || Cabana_ENABLE_SILO W then 0%nat
                 else if _rank s =? 0 then List.length (output_steps t)
                 else 0%nat)).
  assert (Qn : Q []).
  { unfold Q. simpl. destruct (_ || _), (_rank s =? 0); auto. }
  assert (Qa : forall t1 t2, Q t1 -> Q t2 -> Q (t1 ++ t2)).
  { intros t1 t2 [W1 N1] [W2 N2]. unfold Q.
    rewrite written_app, notices_app, output_steps_app, length_app, W1, W2, N1, N2.
    destruct (_ || _), (_rank s =? 0); auto. }
  assert (Qe : forall e, written [e] = [] -> output_steps [e] = [] ->
                         notices [e] = 0%nat -> Q [e]).
  { intros e E1 E2 E3. unfold Q. rewrite E1, E2, E3.
    destruct (_ || _), (_rank s =? 0); auto. }
  assert (Ho : keeps inv inv Q (outputParticles W)).
  { intros x r' x' t' Hx E. unfold inv, Q. rewrite <- Hx.
    run_action E; auto. }
  assert (Hr : keeps inv inv Q (reap W)).
  { apply reap_keeps; auto. }
  assert (Hb : keeps inv inv Q (loop_body W tf wf)).
  { apply loop_body_keeps; auto.
    all: intros x r' x' t' Hx E; run_action E; unfold inv; simpl; auto.
    all: split; auto; try apply Qa; try apply Qe; auto. }
  apply (solve_keeps W inv Q Qn Qa inv fuel tf wf Ho Hb Hr s r s' t eq_refl H).
Qed.

(** X9.  A run of [solve] that integrates [n] times has applied
    [time_step] (control the step size, integrate, redistribute) [n] times
    to the particle data and the [_dt] it started with, whatever its outcome:
    the step sizes integrated with are those of the [n] iterates, in order,
    and [_pm] and [_dt] end as the last iterate. *)
Theorem solve_iterates_time_step fuel tf wf s r s' t :
  solve W fuel tf wf s = (r, s', t) ->
  let o := orbit (time_step W (_gravity s) (_halo_min s))
                 (List.length (dts t)) (_pm s, _dt s) in
  dts t = map snd o /\ (_pm s', _dt s') = last o (_pm s, _dt s).
Proof. apply solve_orbit. Qed.

End Statistics.

(** ** File names, statistics and runs without a step *)

(** ** Strings *)





(** ** Floats *)

Lemma eqb_of_not_ltb (x y : float) :
  is_nan x = false -> is_nan y = false ->
  (x <? y)%float = false -> (y <? x)%float = false -> (x =? y)%float = true.
Proof.
  intros Hx Hy. destruct (not_nan_compare x y Hx Hy) as (c & Hc).
  rewrite !ltb_spec, eqb_spec. unfold SFltb, SFeqb.
  rewrite (SFcompare_antisym (Prim2SF x) (Prim2SF y)), Hc.
  destruct c; simpl; congruence.
Qed.

Lemma timer_stats_collected (samples : list double) (c : Z)
    (stats : option timer_statsinfo) :
  0 <= c < Z.of_nat (List.length samples) ->
  exists st,
    timer_stats samples c c stats = Some st /\
    In (min st) samples /\
    (forall x, In x samples -> (x <? min st)%float = false) /\
    In (max st) samples /\
    (forall x, In x samples -> (max st <? x)%float = false) /\
    mean st = (fold_left PrimFloat.add samples 0
               / double_of_int (Z.of_nat (List.length samples)))%float /\
    std st = PrimFloat.sqrt
               (fold_left (fun a x => a + (x - mean st) * (x - mean st)) samples 0
                / double_of_int (Z.of_nat (List.length samples)))%float.
Proof.
  intros Hr. unfold timer_stats. rewrite Z.eqb_refl.
  set (n := double_of_int (Z.of_nat (List.length samples))).
  set (timer := nth (Z.to_nat c) samples 0%float).
  assert (Ht : In timer samples) by (apply nth_In; lia).
  set (st0 := mk_stats timer timer 0%float 0%float).
  destruct (scan_fold samples st0) as (A1 & A2 & A3 & B1 & B2 & B3 & C & D).
  set (st1 := fold_left stats_scan samples st0) in *.
  set (st2 := mk_stats (min st1) (max st1) (mean st1 / n)%float (std st1)).
  destruct (dev_fold samples st2) as (E1 & E2 & E3 & E4).
  set (st3 := fold_left stats_dev samples st2) in *.
  eexists. split; [reflexivity|].
  cbn [min max mean std].
  rewrite E1, E2, E3, E4. cbn [min max mean std st2].
  rewrite C, D. cbn [min max mean std st0].
  assert (Hmin : In (min st1) samples) by (destruct A1 as [->|]; auto).
  assert (Hmax : In (max st1) samples) by (destruct B1 as [->|]; auto).
  repeat split; auto.
Qed.

(** X10.  The mean and the standard deviation that [timer_stats] stores do
    not depend on which rank collects, that is, on whose sample the minimum
    and the maximum start from; when no sample is NaN the minimum and the
    maximum do not depend on it either, as numbers ([=?] does not tell -0
    from +0). *)
Theorem timer_stats_any_collector (samples : list double) (c1 c2 : Z)
    (stats1 stats2 : option timer_statsinfo) :
  0 <= c1 < Z.of_nat (List.length samples) ->
  0 <= c2 < Z.of_nat (List.length samples) ->
  exists a b,
    timer_stats samples c1 c1 stats1 = Some a /\
    timer_stats samples c2 c2 stats2 = Some b /\
    mean a = mean b /\ std a = std b /\
    (no_nan samples ->
     (min a =? min b)%float = true /\ (max a =? max b)%float = true).
Proof.
  intros H1 H2.
  destruct (timer_stats_collected samples c1 stats1 H1)
    as (a & Ea & Ia & La & Ja & Ua & Ma & Sa).
  destruct (timer_stats_collected samples c2 stats2 H2)
    as (b & Eb & Ib & Lb & Jb & Ub & Mb & Sb).
  exists a, b. split; [assumption|]. split; [assumption|].
  assert (Hm : mean a = mean b) by congruence.
  split; [assumption|]. split; [rewrite Sa, Sb, Hm; reflexivity|].
  intros Hn. split; apply eqb_of_not_ltb; auto.
Qed.

Section Skipped.
Context {PM : Type} (W : World PM).


Lemma time_loop_skipped fuel tf wf (s : State PM) :
  (_time s <? tf)%float = false -> time_loop W fuel tf wf s = (Val tt, s, []).
Proof. intros H. destruct fuel; simpl; now rewrite H. Qed.

Lemma solve_skipped fuel tf wf s :
  (_time s <? tf)%float = false ->
  solve W fuel tf wf s = bind (outputParticles W) (fun _ => reap W) s.
Proof.
  intros Hlt. unfold solve. apply bind_cong; [reflexivity|].
  intros [] s0 t0 Ho.
  destruct (outputParticles_spec W _ _ _ _ Ho) as ((_ & Et & _) & _).
  unfold bind at 1. rewrite time_loop_skipped by (now rewrite Et).
  destruct (reap W s0) as [[r1 s1] t1]. reflexivity.
Qed.

Lemma solve_skipped_run fuel tf wf s :
  (_time s <? tf)%float = false ->
  let run := solve W fuel tf wf s in
  dts (trace run) = [] /\ output_steps (trace run) = [_step s] /\
  _time (final run) = _time s /\ _step (final run) = _step s /\
  _dt (final run) = _dt s /\ _pm (final run) = _pm s.
Proof.
  intros Hlt run. unfold run. rewrite solve_skipped by assumption. clear run.
  destruct (bind (outputParticles W) (fun _ => reap W) s) as [[r s'] t] eqn:E.
  unfold trace, final. cbn [fst snd].
  apply bind_inv in E.
  destruct E as [([] & s1 & t1 & t2 & Eo & Er & ->) | (f & Eo & ->)];
    destruct (outputParticles_spec W _ _ _ _ Eo)
      as ((E1 & E2 & E3 & E4 & _) & (D & _ & _ & O) & _).
  - destruct (reap_spec W _ _ _ _ Er) as (-> & (D' & O' & _) & _).
    rewrite dts_app, output_steps_app, D, D', O, O'. simpl. repeat split; auto.
  - repeat split; auto.
Qed.

(** X12.  When [_time < t_final] does not hold at the call, which includes
    a NaN [t_final], [solve] is the initial output followed by the reap,
    whatever [write_freq] is, 0 included: nothing is integrated, the current
    step is output once, and time, step, step size and particle data are
    left as they were. *)
Theorem loop_skipped fuel tf wf s :
  (_time s <? tf)%float = false ->
  let run := solve W fuel tf wf s in
  run = bind (outputParticles W) (fun _ => reap W) s /\
  dts (trace run) = [] /\ output_steps (trace run) = [_step s] /\
  _time (final run) = _time s /\ _step (final run) = _step s /\
  _dt (final run) = _dt s /\ _pm (final run) = _pm s.
Proof.
  intros Hlt run. split; [now apply solve_skipped|].
  now apply solve_skipped_run.
Qed.

(** X13.  Once a call of [solve] got past its time loop, a second call
    with the same [t_final], whatever its [write_freq], integrates nothing:
    it outputs the current step once more and leaves time, step, step size
    and particle data as the first call left them. *)
Theorem solve_again_is_idle fuel tf wf s r s' t fuel' wf' :
  solve W fuel tf wf s = (r, s', t) -> loop_exited r = true ->
  let again := solve W fuel' tf wf' s' in
  dts (trace again) = [] /\ output_steps (trace again) = [_step s'] /\
  _time (final again) = _time s' /\ _step (final again) = _step s' /\
  _dt (final again) = _dt s' /\ _pm (final again) = _pm s'.
Proof.
  intros H Hx again.
  assert (Hd : defined r = true) by (destruct r as [|[]]; auto; discriminate).
  destruct (solve_run W _ _ _ _ _ _ _ H Hd)
    as (s0 & t0 & r1 & t1 & t2 & Ho & Hl & -> & _ & [(_ & -> & Hr)|(-> & _)]);
    [|discriminate].
  destruct (time_loop_run W _ _ _ _ _ _ _ Hl eq_refl)
    as ([(_ & Hlt)|(E & _)] & _); [|discriminate].
  now apply solve_skipped_run.
Qed.

End Skipped.

(** ** Division by zero, and the solver of [createSolver] *)

Section Faults.
Context {PM : Type} (W : World PM).

Lemma outputParticles_returns s :
  nfork s < INT_MAX ->
  exists s0 t0, outputParticles W s = (Val tt, s0, t0).
Proof.
  intros Hn. apply Z.ltb_lt in Hn.
  destruct (outputParticles W s) as [[r s0] t0] eqn:E.
  exists s0, t0. f_equal. f_equal. unfold_M.
  split_ifs; simpl in *; inversion E; try reflexivity; congruence.
Qed.

(** X14.  With [write_freq = 0], [_time < t_final] and neither [nfork]
    nor [_step] at [INT_MAX], the run divides by zero in the first iteration
    of the loop, after the initial output and before any wait: on rank 0 in
    the test for the progress line, before anything is integrated; on the
    other ranks, which do not evaluate that test, in the test for the
    periodic output, after one integration. *)
Theorem write_freq_zero_divides fuel tf s :
  (_time s <? tf)%float = true -> nfork s < INT_MAX -> _step s < INT_MAX ->
  let run := solve W (S fuel) tf 0 s in
  outcome run = Fault (Undefined DivisionByZero) /\
  output_steps (trace run) = [_step s] /\
  dts (trace run) = (if _rank s =? 0 then []
                     else [timeStepControl W (_pm s) (_dt s)]) /\
  waits (trace run) = [].
Proof.
  intros Hlt Hn Hs run.
  destruct (outputParticles_returns s Hn) as (s0 & t0 & Eo).
  destruct (outputParticles_spec W _ _ _ _ Eo)
    as ((E1 & E2 & E3 & E4 & E5 & _) & (D & Wt & _ & O) & _).
  assert (El : exists s1 t1,
             time_loop W (S fuel) tf 0 s0
             = (Fault (Undefined DivisionByZero), s1, t1) /\
             output_steps t1 = [] /\ waits t1 = [] /\
             dts t1 = (if _rank s =? 0 then []
                       else [timeStepControl W (_pm s) (_dt s)])).
  { cbn [time_loop]. rewrite E2, Hlt. unfold loop_body. unfold_M.
    rewrite E5, (Z.eqb_sym (_rank s) 0).
    destruct (0 =? _rank s) eqn:Ek; cbn.
    - eexists _, _. split; [reflexivity|]. auto.
    - rewrite E3. apply Z.ltb_lt in Hs. rewrite Hs. cbn.
      eexists _, _. split; [reflexivity|]. rewrite E1, E4. auto. }
  destruct El as (s1 & t1 & El & O1 & W1 & D1).
  unfold run, solve, bind, outcome, trace. rewrite Eo, El. cbn [fst snd].
  rewrite output_steps_app, dts_app, waits_app, O, O1, D, D1, Wt, W1.
  auto.
Qed.

(** X15.  A run never launches more background processes than it makes
    outputs. *)
Theorem at_most_one_fuser_per_output fuel tf wf s r s' t :
  solve W fuel tf wf s = (r, s', t) ->
  (List.length (forks t) <= List.length (output_steps t))%nat.
Proof.
  intros H.
  pose (Q := fun t => (List.length (forks t) <= List.length (output_steps t))%nat).
  assert (Qa : forall t1 t2, Q t1 -> Q t2 -> Q (t1 ++ t2)).
  { intros t1 t2 Q1 Q2. unfold Q in *.
    rewrite forks_app, output_steps_app, !length_app. lia. }
  assert (Ho : keeps (fun _ => True) (fun _ => True) Q (outputParticles W)).
  { intros x r' x' t' _ E. run_action E; unfold Q; simpl; auto. }
  assert (Hr : keeps (fun _ => True) (fun _ => True) Q (reap W)).
  { apply reap_keeps; unfold Q; simpl; auto. }
  assert (Hb : keeps (fun _ => True) (fun _ => True) Q (loop_body W tf wf)).
  { apply loop_body_keeps; unfold Q; simpl; auto.
    all: intros x r' x' t' _ E; run_action E; simpl; auto. }
  apply (solve_keeps W (fun _ => True) Q (le_n 0) Qa (fun _ => True) fuel tf wf
           Ho Hb Hr s r s' t I H).
Qed.

End Faults.

Lemma createSolver_made {PM} (K : Kokkos) (device : string)
    (delta_t gravity : double) (pm : PM) (rank : Z) sp s :
  createSolver K device delta_t gravity pm rank = make_shared sp s ->
  s = Solver_new delta_t gravity pm rank.
Proof.
  unfold createSolver. intros H.
  repeat match type of H with
         | context [if ?c then _ else _] => destruct c
         end; inversion H; reflexivity.
Qed.

(** X16.  [createSolver] does not touch the counter [nfork] of the
    process.  A run of [solve] on the solver it returns, in a process whose
    [nfork] holds [n] by then (0 in a new process, more when an earlier
    solver launched background processes), begins with the output of step 0
    at time 0; every integration is given the gravity passed to
    [createSolver] and every redistribution the halo width 3, and [_rank]
    stays the rank passed; when the run met nothing undefined, [_step] ends
    as the number of integrations, [_time] as the sum of the step sizes,
    added in order to 0, and [nfork] as [n] plus the number of background
    processes the run launched. *)
Theorem created_solver_run {PM} (W : World PM) (K : Kokkos) (device : string)
    (delta_t gravity : double) (pm : PM) (rank : Z) sp s (n : Z)
    fuel tf wf r s' t :
  createSolver K device delta_t gravity pm rank = make_shared sp s ->
  solve W fuel tf wf (with_nfork n s) = (r, s', t) ->
  hd_error t = Some (OutputParticles 0 0%float) /\
  stepped gravity 3 t /\
  _gravity s' = gravity /\ _halo_min s' = 3 /\ _rank s' = rank /\
  (defined r = true ->
   _step s' = Z.of_nat (List.length (dts t)) /\
   _time s' = fold_left PrimFloat.add (dts t) 0%float /\
   nfork s' = n + Z.of_nat (List.length (forks t))).
Proof.
  intros Hc H. apply createSolver_made in Hc. subst s.
  destruct (solve_stepped W _ _ _ _ _ _ _ H) as (St & G & Hm & Rk).
  cbn [Solver_new with_nfork _gravity _halo_min _rank] in St, G, Hm, Rk.
  refine (conj _ (conj St (conj G (conj Hm (conj Rk _))))).
  - unfold solve in H. apply bind_inv in H.
    destruct H as [(a & s1 & t1 & t2 & Eo & _ & ->) | (f & Eo & ->)];
      apply outputParticles_head in Eo;
      cbn [Solver_new with_nfork _step _time] in Eo.
    + destruct t1; [discriminate|]. exact Eo.
    + exact Eo.
  - intros Hd.
    destruct (solve_run W _ _ _ _ _ _ _ H Hd)
      as (s0 & t0 & r1 & t1 & t2 & Ho & Hl & -> & Hd1 & Hend).
    destruct (outputParticles_spec W _ _ _ _ Ho)
      as ((_ & E2 & E3 & _) & (D0 & _) & _ & N0 & _).
    destruct (time_loop_run W _ _ _ _ _ _ _ Hl Hd1)
      as (_ & Es & Et & _ & _ & _ & N1 & _).
    specialize (N0 eq_refl).
    cbn [Solver_new with_nfork _step _time nfork] in E2, E3, N0.
    assert (Q2 : dts t2 = [] /\ forks t2 = []).
    { destruct Hend as [(_ & _ & Hr)|(_ & _ & ->)]; [|auto].
      destruct (reap_spec W _ _ _ _ Hr) as (_ & (D2 & _ & F2) & _). auto. }
    destruct Q2 as [D2 F2].
    rewrite !dts_app, !forks_app, D0, D2, F2, !app_nil_r. cbn [app].
    rewrite Es, Et, N1, E2, E3, N0, length_app. repeat split; lia || auto.
Qed.

(** ** The environment *)

Lemma same_collaborators_world {PM} (W W' : World PM) :
  same_collaborators W W' -> W' = with_getenv (getenv W') W.
Proof.
  destruct W, W'. unfold same_collaborators, with_getenv.
  cbn [Cabana_ENABLE_HDF5 Cabana_ENABLE_SILO getenv atoi h5_default world_rank
       shm_rank write_seconds timeStepControl TimeIntegrator_step
       communicateParticles writeTimeStep config_filename waitpid
       indeterminate].
  intros (-> & -> & -> & -> & -> & -> & -> & -> & -> & -> & -> & -> & -> & ->).
  reflexivity.
Qed.

Section Environment.
Context {PM : Type} (W : World PM) (env : string -> option string).

Hypothesis reads : same_reads W (with_getenv env W).

Lemma h5_config_of_with_getenv :
  h5_config_of_env (with_getenv env W) = h5_config_of_env W.
Proof.
  destruct reads as (E1 & E2 & E3 & E4 & _).
  unfold h5_config_of_env. rewrite E1, E2, E3.
  change (h5_default (with_getenv env W)) with (h5_default W).
  change (atoi (with_getenv env W)) with (atoi W).
  destruct (is_set (getenv W "H5FUSE")) eqn:E; [|reflexivity].
  now rewrite (E4 eq_refl).
Qed.

Lemma outputParticles_with_getenv s :
  outputParticles (with_getenv env W) s = outputParticles W s.
Proof.
  pose proof reads as (_ & _ & E3 & _ & E5).
  unfold outputParticles, h5fuse_config.
  rewrite h5_config_of_with_getenv, E3, E5.
  reflexivity.
Qed.

Lemma loop_body_with_getenv tf wf s :
  loop_body (with_getenv env W) tf wf s = loop_body W tf wf s.
Proof.
  unfold loop_body.
  repeat (apply bind_cong; [reflexivity|intros ? ? ? ?]).
  unfold periodic_output.
  repeat (apply bind_cong; [reflexivity|intros ? ? ? ?]).
  destruct (0 =? _); [apply outputParticles_with_getenv|reflexivity].
Qed.

Lemma time_loop_with_getenv tf wf fuel : forall s,
  time_loop (with_getenv env W) fuel tf wf s = time_loop W fuel tf wf s.
Proof.
  induction fuel as [|fuel IH]; intros s; [reflexivity|].
  cbn [time_loop]. destruct (_time s <? tf)%float; [|reflexivity].
  apply bind_cong; [apply loop_body_with_getenv|intros ? ? ? ?; apply IH].
Qed.

Lemma solve_with_getenv fuel tf wf s :
  solve (with_getenv env W) fuel tf wf s = solve W fuel tf wf s.
Proof.
  unfold solve.
  apply bind_cong; [apply outputParticles_with_getenv|intros ? ? ? ?].
  apply bind_cong; [apply time_loop_with_getenv|intros ? ? ? ?]. reflexivity.
Qed.

End Environment.

(** X17.  What the code of this file does depends on the environment only
    through whether [H5FD_SUBFILING] and [H5FUSE] are set, the values of
    [H5FD_SUBFILING_STRIPE_SIZE] and [H5FD_SUBFILING_CONFIG_FILE_PREFIX] and,
    when [H5FUSE] is set, whether [LOC] is set: in two environments that
    agree on these, and with a build and collaborators (the HDF5 writer, the
    time step control, the integrator, MPI, [atoi], [waitpid]) that answer
    alike in both, a run of [solve] from the same state has the same
    outcome, final state and trace, the configuration handed to the writer
    included.  What the collaborators themselves read from the environment
    is not the code of this file and is left to the hypothesis. *)
Theorem same_reads_same_run {PM} (W W' : World PM) fuel tf wf s :
  same_collaborators W W' -> same_reads W W' ->
  solve W' fuel tf wf s = solve W fuel tf wf s.
Proof.
  intros Hc Hr. rewrite (same_collaborators_world W W' Hc) in Hr |- *.
  now apply solve_with_getenv.
Qed.


(** ** The further properties on concrete runs *)

(** [run_quarters] sets none of the switches and launches nothing. *)
Lemma no_fusion_witness :
  fusion_on (demo_world [] "" 0 all_exit_0 0) = false /\
  nfork (demo_solver 0) <= 0 /\
  forks (trace run_quarters) = [] /\
  nfork (final run_quarters) = 0 /\
  waits (trace run_quarters) = [].
Proof.
  unfolded_run run_quarters H.
  assert (F : fusion_on (demo_world [] "" 0 all_exit_0 0) = false) by computed.
  assert (N : nfork (demo_solver 0) <= 0) by (vm_compute; discriminate).
  destruct (no_fusion _ _ _ _ _ _ _ _ F H) as (Hf & Hn & _ & Hw).
  destruct (Hw N) as (Hw' & _).
  split; [exact F|]. split; [exact N|]. split; [exact Hf|].
  split; [rewrite Hn; computed|exact Hw'].
Defined.

(** The leader of the second node launches one fuser for each of the
    outputs 0, 1 and 2. *)
Lemma local_fusers_witness :
  local_fuse (at_rank (demo_world local_fusion "" 0 all_exit_0 0) two_nodes 4)
  = true /\
  forks (trace run_leader4)
  = [["./h5fuse"; "-r"; "-f"; "./particles_0.h5"];
     ["./h5fuse"; "-r"; "-f"; "./particles_1.h5"];
     ["./h5fuse"; "-r"; "-f"; "./particles_2.h5"]].
Proof.
  unfolded_run run_leader4 H.
  assert (F : local_fuse (at_rank (demo_world local_fusion "" 0 all_exit_0 0)
                                  two_nodes 4) = true) by computed.
  split; [exact F|].
  rewrite (local_fusers _ _ _ _ _ _ _ _ F H). computed.
Defined.


(** The same leader has waited for its three fusers when [solve] returns. *)
Lemma leader_reaps_every_fuser_witness :
  shm_rank (at_rank (demo_world local_fusion "" 0 all_exit_0 0) two_nodes 4) = 0 /\
  outcome run_leader4 = Val tt /\
  nfork (final run_leader4) = 3 /\
  List.length (waits (trace run_leader4)) = 3%nat.
Proof.
  pose (W := at_rank (demo_world local_fusion "" 0 all_exit_0 0) two_nodes 4).
  assert (H : solve W 10 0.5%float 1 (demo_solver 4)
              = (Val tt, final run_leader4, trace run_leader4)) by computed.
  assert (F : local_fuse W = true) by computed.
  assert (S0 : shm_rank W = 0) by computed.
  assert (N : 0 <= nfork (demo_solver 4)) by (vm_compute; discriminate).
  destruct (leader_reaps_every_fuser W _ _ _ _ _ _ F S0 N H) as (Hn & Hw & _).
  split; [exact S0|]. split; [computed|].
  split; [rewrite Hn; computed|].
  apply Nat2Z.inj. rewrite Hw, Hn. computed.
Defined.

(** In [run_quarters] each of the four integrations without gravity is
    followed by a redistribution with halo width 3. *)
Lemma redistribution_follows_integration_witness :
  stepped 0%float 3 (trace run_quarters) /\
  _halo_min (final run_quarters) = 3.
Proof.
  unfolded_run run_quarters H.
  destruct (redistribution_follows_integration _ _ _ _ _ _ _ _ H)
    as (Hs & _ & Hh & _).
  split; [exact Hs|exact Hh].
Defined.

Lemma progress_on_rank_0_only_witness :
  _rank (demo_solver 1) <> 0 /\ progress_lines (trace run_rank1) = [].
Proof.
  unfolded_run run_rank1 H.
  assert (N : _rank (demo_solver 1) <> 0) by (vm_compute; discriminate).
  split; [exact N|]. exact (progress_on_rank_0_only _ _ _ _ _ _ _ _ N H).
Defined.

(** Rank 0 of an HDF5 build prints two progress lines, each with
    statistics. *)
Lemma progress_reports_write_times_witness :
  Cabana_ENABLE_HDF5 (demo_world [] "" 0 all_exit_0 0) = true /\
  List.length (progress_lines (trace run_quarters)) = 2%nat /\
  Forall (fun o => o <> None) (progress_lines (trace run_quarters)).
Proof.
  unfolded_run run_quarters H.
  assert (B : Cabana_ENABLE_HDF5 (demo_world [] "" 0 all_exit_0 0) = true)
    by computed.
  assert (K : world_rank (demo_world [] "" 0 all_exit_0 0) = _rank (demo_solver 0))
    by computed.
  split; [exact B|]. split; [computed|].
  exact (progress_reports_write_times _ _ _ _ _ _ _ _ B K H).
Defined.

(** In a Silo build a new solver prints its two progress lines from the
    unset [io_stats]. *)
Lemma progress_without_hdf5_witness :
  Cabana_ENABLE_HDF5 (silo_build (demo_world [] "" 0 all_exit_0 0)) = false /\
  io_stats (demo_solver 0) = None /\
  progress_lines (trace run_silo) = [None; None] /\
  io_stats (final run_silo) = None.
Proof.
  unfolded_run run_silo H.
  assert (B : Cabana_ENABLE_HDF5 (silo_build (demo_world [] "" 0 all_exit_0 0))
              = false) by computed.
  destruct (progress_without_hdf5 _ _ _ _ _ _ _ _ B H) as (Hs & _).
  split; [exact B|]. split; [computed|]. split; [computed|].
  rewrite Hs. computed.
Defined.

(** The Silo build writes the three outputs of [run_silo] and prints no
    notice. *)
Lemma every_output_written_witness :
  written (trace run_silo) = [0; 2; 4] /\ notices (trace run_silo) = 0%nat.
Proof.
  unfolded_run run_silo H.
  destruct (every_output_written _ _ _ _ _ _ _ _ H) as (Hw & Hn).
  split; [rewrite Hw; computed|rewrite Hn; computed].
Defined.

(** [run_three_tenths] applies the time step four times. *)
Lemma solve_iterates_time_step_witness :
  dts (trace run_three_tenths)
  = [three_tenths; three_tenths; three_tenths; three_tenths] /\
  _dt (final run_three_tenths) = three_tenths.
Proof.
  unfolded_run run_three_tenths H.
  destruct (solve_iterates_time_step _ _ _ _ _ _ _ _ H) as (Hd & Hl).
  split; [rewrite Hd; computed|].
  apply (f_equal snd) in Hl. cbn [snd] in Hl. rewrite Hl. computed.
Defined.

(** Three ranks measure 3, 1 and 2 seconds: rank 0 and rank 2 collect the
    same statistics. *)
Lemma timer_stats_any_collector_witness :
  0 <= 0 < Z.of_nat (List.length [3; 1; 2]%float) /\
  0 <= 2 < Z.of_nat (List.length [3; 1; 2]%float) /\
  exists a b,
    timer_stats [3; 1; 2]%float 0 0 None = Some a /\
    timer_stats [3; 1; 2]%float 2 2 None = Some b /\
    mean a = mean b /\ std a = std b.
Proof.
  assert (H0 : 0 <= 0 < Z.of_nat (List.length [3; 1; 2]%float)) by (simpl; lia).
  assert (H2 : 0 <= 2 < Z.of_nat (List.length [3; 1; 2]%float)) by (simpl; lia).
  split; [exact H0|]. split; [exact H2|].
  destruct (timer_stats_any_collector [3; 1; 2]%float 0 2 None None H0 H2)
    as (a & b & Ha & Hb & Hm & Hs & _).
  exists a, b. auto.
Defined.


(** With NaN for [t_final] the run is the initial output and the reap. *)
Lemma loop_skipped_witness :
  (_time (demo_solver 0) <? nan)%float = false /\
  dts (trace run_nan) = [] /\ output_steps (trace run_nan) = [0].
Proof.
  assert (L : (_time (demo_solver 0) <? nan)%float = false) by computed.
  split; [exact L|].
  destruct (loop_skipped (demo_world [] "" 0 all_exit_0 0) 10 nan 2
              (demo_solver 0) L) as (_ & Hd & Ho & _).
  split; [exact Hd|exact Ho].
Defined.

(** After [run_quarters] a second call writes step 4 again and integrates
    nothing. *)
Lemma solve_again_is_idle_witness :
  loop_exited (outcome run_quarters) = true /\
  dts (trace run_again) = [] /\ output_steps (trace run_again) = [4] /\
  _time (final run_again) = 1%float.
Proof.
  unfolded_run run_quarters H.
  assert (E : loop_exited (outcome run_quarters) = true) by computed.
  destruct (solve_again_is_idle _ _ _ _ _ _ _ _ 5%nat 3 H E)
    as (Hd & Ho & Ht & _).
  split; [exact E|]. split; [exact Hd|].
  split; [unfold run_again; rewrite Ho; computed|].
  unfold run_again; rewrite Ht; computed.
Defined.

(** Rank 1 integrates once before it divides by zero. *)
Lemma write_freq_zero_divides_witness :
  (_time (demo_solver 1) <? 1)%float = true /\
  nfork (demo_solver 1) < INT_MAX /\ _step (demo_solver 1) < INT_MAX /\
  outcome run_zero_freq = Fault (Undefined DivisionByZero) /\
  dts (trace run_zero_freq) = [0.25%float].
Proof.
  assert (L : (_time (demo_solver 1) <? 1)%float = true) by computed.
  assert (N : nfork (demo_solver 1) < INT_MAX) by computed.
  assert (S1 : _step (demo_solver 1) < INT_MAX) by computed.
  destruct (write_freq_zero_divides (demo_world [] "" 0 all_exit_0 0) 9
              1%float (demo_solver 1) L N S1) as (Hr & _ & Hd & _).
  split; [exact L|]. split; [exact N|]. split; [exact S1|].
  split; [exact Hr|]. unfold run_zero_freq. rewrite Hd. computed.
Defined.

Lemma at_most_one_fuser_per_output_witness :
  List.length (forks (trace run_global)) = 3%nat /\
  (3 <= List.length (output_steps (trace run_global)))%nat.
Proof.
  unfolded_run run_global H.
  pose proof (at_most_one_fuser_per_output _ _ _ _ _ _ _ _ H) as L.
  assert (F : List.length (forks (trace run_global)) = 3%nat) by computed.
  split; [exact F|]. rewrite <- F. exact L.
Defined.

(** The second solver of the process of [run_leader4] starts with the
    output of step 0 while [nfork] holds the 3 of the first run, and leaves
    it at 6 after its own three fusers. *)
Lemma created_solver_run_witness :
  createSolver (mk_kokkos true false false false) "Serial"
               0.25%float 0%float tt 4
  = make_shared HostSpace_Serial (demo_solver 4) /\
  nfork (final run_leader4) = 3 /\
  hd_error (trace run_later) = Some (OutputParticles 0 0%float) /\
  _step (final run_later) = 2 /\ _halo_min (final run_later) = 3 /\
  nfork (final run_later) = 6.
Proof.
  assert (C : createSolver (mk_kokkos true false false false) "Serial"
                           0.25%float 0%float tt 4
              = make_shared HostSpace_Serial (demo_solver 4)) by computed.
  assert (H : solve (at_rank (demo_world local_fusion "" 0 all_exit_0 0)
                             two_nodes 4)
                    10 0.5%float 1
                    (with_nfork (nfork (final run_leader4)) (demo_solver 4))
              = (outcome run_later, final run_later, trace run_later))
    by computed.
  assert (D : defined (outcome run_later) = true) by computed.
  destruct (created_solver_run _ _ _ _ _ _ _ _ _ _ _ _ _ _ _ _ C H)
    as (Hh & _ & _ & Hm & _ & Hd).
  destruct (Hd D) as (Hs & _ & Hn).
  split; [exact C|]. split; [computed|]. split; [exact Hh|].
  split; [rewrite Hs; computed|]. split; [exact Hm|].
  rewrite Hn. computed.
Defined.

(** Without [H5FUSE], setting [LOC], and [HOME], changes nothing in
    [run_quarters]. *)
Lemma same_reads_same_run_witness :
  same_collaborators (demo_world [] "" 0 all_exit_0 0)
                     (demo_world ["LOC"; "HOME"] "" 0 all_exit_0 0) /\
  same_reads (demo_world [] "" 0 all_exit_0 0)
             (demo_world ["LOC"; "HOME"] "" 0 all_exit_0 0) /\
  getenv (demo_world ["LOC"; "HOME"] "" 0 all_exit_0 0) "LOC" = Some "1" /\
  run_loc = run_quarters.
Proof.
  assert (C : same_collaborators (demo_world [] "" 0 all_exit_0 0)
                (demo_world ["LOC"; "HOME"] "" 0 all_exit_0 0))
    by (repeat split; reflexivity).
  assert (R : same_reads (demo_world [] "" 0 all_exit_0 0)
                (demo_world ["LOC"; "HOME"] "" 0 all_exit_0 0)).
  { refine (conj _ (conj _ (conj _ (conj _ _)))); try reflexivity.
    intros E. vm_compute in E. discriminate E. }
  split; [exact C|]. split; [exact R|]. split; [reflexivity|].
  exact (same_reads_same_run _ _ 10%nat 1%float 2 (demo_solver 0) C R).
Defined.
